(** * CSV to Excel converter: a shallow embedding of [csv_to_excel_converter.py]

    The program reads a CSV file into a pandas DataFrame, normalises it
    ([clean_dataframe]), optionally renames columns
    ([parse_rename_columns] and [DataFrame.rename]) and writes an Excel
    workbook.  Strings are sequences of code points below 256 (Rocq's
    [ascii] read as Latin-1), a DataFrame is the ordered list of its
    labelled columns (labels may repeat), the rename dictionary is a finite
    map, and exceptions and [sys.exit] are explicit outcomes.  The three
    library entry points the program calls and does not define
    ([pd.read_csv], [pd.to_datetime], [DataFrame.to_excel]) are parameters. *)

From Stdlib Require Import Ascii String NArith ZArith Bool Lia.
From stdpp Require Import base option list gmap strings.

Local Open Scope string_scope.

(** ** Python [str] methods used by the program *)

Module PyStr.

(** [c.isspace()] on code points below 256: TAB..CR, FS..US, SPACE,
    NEL (0x85) and NBSP (0xA0). *)
Definition isspace (c : ascii) : bool :=
  let n := N_of_ascii c in
  ((9 <=? n) && (n <=? 13) || (28 <=? n) && (n <=? 32)
   || (n =? 133) || (n =? 160))%N.

(** [c.lower()] on code points below 256: A..Z and the Latin-1 capitals
    0xC0..0xDE (without the multiplication sign 0xD7) move up by 32. *)
Definition lower_char (c : ascii) : ascii :=
  let n := N_of_ascii c in
  if ((65 <=? n) && (n <=? 90)
      || (192 <=? n) && (n <=? 222) && negb (n =? 215))%N
  then ascii_of_N (n + 32) else c.

Fixpoint map_chars (f : ascii → ascii) (s : string) : string :=
  match s with
  | EmptyString => EmptyString
  | String c s' => String (f c) (map_chars f s')
  end.

Fixpoint lstrip (s : string) : string :=
  match s with
  | EmptyString => EmptyString
  | String c s' => if isspace c then lstrip s' else s
  end.

Fixpoint rstrip (s : string) : string :=
  match s with
  | EmptyString => EmptyString
  | String c s' =>
      match rstrip s' with
      | EmptyString => if isspace c then EmptyString else String c EmptyString
      | r => String c r
      end
  end.

(** [s.strip()]: whitespace removed at both ends. *)
Definition strip (s : string) : string := rstrip (lstrip s).

(** [s.lower()] *)
Definition lower (s : string) : string := map_chars lower_char s.

(** [s.replace(old, new)] for one-character [old] and [new]. *)
Definition replace (old new : ascii) (s : string) : string :=
  map_chars (λ c, if Ascii.eqb c old then new else c) s.

(** [s.split(sep)] for a one-character [sep]: one more piece than there
    are separators, empty pieces kept. *)
Fixpoint split (sep : ascii) (s : string) : list string :=
  match s with
  | EmptyString => [EmptyString]
  | String c s' =>
      if Ascii.eqb c sep then EmptyString :: split sep s'
      else match split sep s' with
           | piece :: rest => String c piece :: rest
           | [] => [String c EmptyString]
           end
  end.

(** [sep.join(pieces)] *)
Fixpoint join (sep : string) (pieces : list string) : string :=
  match pieces with
  | [] => EmptyString
  | [p] => p
  | p :: rest => p ++ sep ++ join sep rest
  end.

(** [s.endswith(suffix)] *)
Fixpoint endswith (s suffix : string) : bool :=
  String.eqb s suffix
  || match s with
     | EmptyString => false
     | String _ s' => endswith s' suffix
     end.

(** [s.rfind(c)] for a one-character [c]: the highest index, if any. *)
Fixpoint rfind (c : ascii) (s : string) : option nat :=
  match s with
  | EmptyString => None
  | String x s' =>
      match rfind c s' with
      | Some i => Some (S i)
      | None => if Ascii.eqb x c then Some 0 else None
      end
  end.

(** [s[i:]] *)
Fixpoint drop (i : nat) (s : string) : string :=
  match i, s with
  | 0, _ => s
  | S i', String _ s' => drop i' s'
  | S _, EmptyString => EmptyString
  end.

(** [c in s] for a one-character [c]. *)
Fixpoint contains (s : string) (c : ascii) : bool :=
  match s with
  | EmptyString => false
  | String x s' => Ascii.eqb x c || contains s' c
  end.

(** [s.count(c)] for a one-character [c]. *)
Fixpoint count (s : string) (c : ascii) : nat :=
  match s with
  | EmptyString => 0
  | String x s' => (if Ascii.eqb x c then 1 else 0) + count s' c
  end.

(** Truth value of a string: empty is false. *)
Definition truthy (s : string) : bool :=
  match s with EmptyString => false | _ => true end.

(** The character map of [replace(" ", "_")]. *)
Definition underscore (c : ascii) : ascii :=
  if Ascii.eqb c " " then "_"%char else c.

(** No whitespace at the left end. *)
Definition starts_clean (s : string) : Prop :=
  match s with
  | EmptyString => True
  | String c _ => isspace c = false
  end.

(** What [idx.str.strip().str.lower().str.replace(" ", "_")] does to one
    label. *)
Definition clean_name (s : string) : string :=
  replace " " "_" (lower (strip s)).

End PyStr.

(** ** Exceptions and outcomes *)

(** The exception classes the program meets.  [EmptyDataError] is pandas'
    subclass of [ValueError]; [OtherError] stands for every other subclass
    of [Exception]. *)
Inductive exn : Type :=
| ValueError | TypeError | KeyError
| FileNotFoundError | EmptyDataError | OtherError.

(** The classes named in [except] clauses. *)
Inductive exn_class : Type :=
| CValueError | CTypeError | CFileNotFoundError | CEmptyDataError | CException.

Definition isinstance (e : exn) (c : exn_class) : bool :=
  match c, e with
  | CException, _ => true
  | CValueError, (ValueError | EmptyDataError) => true
  | CTypeError, TypeError => true
  | CFileNotFoundError, FileNotFoundError => true
  | CEmptyDataError, EmptyDataError => true
  | _, _ => false
  end.

(** A call either returns or raises. *)
Inductive result (A : Type) : Type :=
| Ok (a : A)
| Raise (e : exn).
Arguments Ok {A} a.
Arguments Raise {A} e.

#[global] Instance result_ret : MRet result := λ A a, Ok a.
#[global] Instance result_bind : MBind result := λ A B k r,
  match r with
  | Ok a => k a
  | Raise e => Raise e
  end.

(** ** The part of pandas the program uses *)

Module Pandas.

(** A cell: the missing marker [NaN], or a value read from the file, or
    (after [to_datetime]) a timestamp or the missing timestamp [NaT]. *)
Inductive Cell : Type :=
| NaN
| NaT
| Str (s : string)
| Int (z : Z)
| Boolean (b : bool)
| Timestamp (ns : Z).

Abbreviation Series := (list Cell).

(** Columns in order, each with its label; labels may repeat. *)
Abbreviation DataFrame := (list (string * Series)).

(** [df.columns] *)
Definition columns (df : DataFrame) : list string := df.*1.

(** [df.columns = idx]: a new label for each column, by position;
    pandas raises [ValueError] on a length mismatch. *)
Definition set_columns (df : DataFrame) (idx : list string) : result DataFrame :=
  if decide (length idx = length df)
  then Ok (zip_with (λ n (p : string * Series), (n, p.2)) idx df)
  else Raise ValueError.

(** [idx.str.strip()], [idx.str.lower()], [idx.str.replace(" ", "_")] *)
Definition str_strip (idx : list string) : list string := PyStr.strip <$> idx.
Definition str_lower (idx : list string) : list string := PyStr.lower <$> idx.
Definition str_replace (old new : ascii) (idx : list string) : list string :=
  PyStr.replace old new <$> idx.

(** [pd.isna] on a cell. *)
Definition isna (c : Cell) : bool :=
  match c with NaN | NaT => true | _ => false end.

(** [df.fillna(value)] *)
Definition fillna (value : Cell) (df : DataFrame) : DataFrame :=
  (λ p : string * Series, (p.1, (λ c, if isna c then value else c) <$> p.2)) <$> df.

(** [df[col]] selects every column labelled [col]: a Series when there is
    one, a DataFrame when there are several. *)
Definition getitem (df : DataFrame) (col : string) : list Series :=
  (filter (λ p : string * Series, p.1 = col) df).*2.

(** [df[col] = s] for a label already present: the column keeps its place. *)
Definition setitem (df : DataFrame) (col : string) (s : Series) : DataFrame :=
  (λ p : string * Series, if decide (p.1 = col) then (p.1, s) else p) <$> df.

(** [df.rename(columns=mapper)]: a label that is a key is replaced by its
    value, any other label stays (the default [errors="ignore"]). *)
Definition rename (mapper : gmap string string) (df : DataFrame) : DataFrame :=
  (λ p : string * Series, (default p.1 (mapper !! p.1), p.2)) <$> df.

End Pandas.

(** ** The part of [pathlib] the program uses (POSIX flavour) *)

Module Pathlib.

(** A path as [pathlib] keeps it: the root (a lone leading slash, or two
    when exactly two are written) and the components, where empty and
    ["."] components are dropped. *)
Record Path : Type := mkPath { root : string; parts : list string }.

Definition parse_root (s : string) : string :=
  match s with
  | String "/" (String "/" (String "/" _)) => "/"
  | String "/" (String "/" _) => "//"
  | String "/" _ => "/"
  | _ => ""
  end.

Definition keep_part (p : string) : bool :=
  negb (String.eqb p "") && negb (String.eqb p ".").

(** [Path(s)] *)
Definition of_string (s : string) : Path :=
  {| root := parse_root s;
     parts := List.filter keep_part (PyStr.split "/" s) |}.

(** [str(p)] *)
Definition to_string (p : Path) : string :=
  match root p, parts p with
  | EmptyString, [] => "."
  | r, ps => r ++ PyStr.join "/" ps
  end.

(** [p.name]: the last component, or the empty string. *)
Definition name (p : Path) : string := List.last (parts p) "".

(** [p.suffix]: the part of the name from its last dot on, when that dot
    is neither the first nor the last character of the name. *)
Definition suffix (p : Path) : string :=
  let n := name p in
  match PyStr.rfind "." n with
  | Some i =>
      if (0 <? i)%nat && (i <? String.length n - 1)%nat
      then PyStr.drop i n else ""
  | None => ""
  end.

End Pathlib.

(** ** The program *)

(** How a run of a function that may call [sys.exit] ends. *)
Inductive outcome : Type :=
| Returned
| Exited (code : Z)
| Raised (e : exn).

(** Exit status of the process: [0] after a normal return, the argument of
    [sys.exit], and [1] after an uncaught exception. *)
Definition exit_status (o : outcome) : Z :=
  match o with
  | Returned => 0
  | Exited code => code
  | Raised _ => 1
  end.

(** File-system accesses, in the order they are made. *)
Inductive Event : Type :=
| EvExists (path : string)
| EvReadCsv (path : string)
| EvToExcel (path : string).

(** What [parser.parse_args()] gives for a command line: the values of
    [-i], [-o] and [-r] ([None] when [-r] is not given), or the exit that
    [argparse] makes itself (status 2 on a usage error, 0 after [-h]). *)
Inductive ParsedArgs : Type :=
| Namespace (input output : string) (rename : option string)
| SystemExit (code : Z).

Section Converter.
Import Pandas.

(** The file system and the library calls that act on it. *)
Variable FS : Type.
(** [Path.exists] *)
Variable path_exists : FS → string → bool.
(** [pd.read_csv(path)] *)
Variable read_csv : FS → string → result DataFrame.
(** [pd.to_datetime(series)] on one column *)
Variable to_datetime : Series → result Series.
(** [df.to_excel(path, index=False, engine="openpyxl")]: how the call
    ends and the file system it leaves. *)
Variable to_excel : DataFrame → string → FS → result unit * FS.

(** [pd.to_datetime(df[col])]: with one column of that label the Series
    is parsed; with several the argument is a DataFrame, which pandas
    refuses to assemble ([ValueError], duplicate keys). *)
Definition to_datetime_of (df : DataFrame) (col : string) : result Series :=
  match getitem df col with
  | [] => Raise KeyError
  | [s] => to_datetime s
  | _ :: _ :: _ => Raise ValueError
  end.

(** [except (ValueError, TypeError)] *)
Definition is_value_or_type_error (e : exn) : bool :=
  isinstance e CValueError || isinstance e CTypeError.

(** The loop of [clean_dataframe] over the labels [cols]:
    [try: df[col] = pd.to_datetime(df[col])
     except (ValueError, TypeError): continue]. *)
Fixpoint date_parsing (cols : list string) (df : DataFrame) : result DataFrame :=
  match cols with
  | [] => Ok df
  | col :: rest =>
      match to_datetime_of df col with
      | Ok s => date_parsing rest (setitem df col s)
      | Raise e =>
          if is_value_or_type_error e
          then date_parsing rest df
          else Raise e
      end
  end.

(** The three string operations on [df.columns], as chained in the source. *)
Definition cleaned_columns (df : DataFrame) : list string :=
  str_replace " " "_" (str_lower (str_strip (columns df))).

Definition clean_dataframe (df : DataFrame) : result DataFrame :=
  df ← set_columns df (cleaned_columns df);
  let df := fillna (Str "") df in
  date_parsing (columns df) df.

(** [old, new = pair.split(":")]: unpacking needs exactly two pieces. *)
Definition unpack_pair (pieces : list string) : result (string * string) :=
  match pieces with
  | [old; new] => Ok (old, new)
  | _ => Raise ValueError
  end.

(** The loop of [parse_rename_columns] over the pairs. *)
Fixpoint parse_pairs (pairs : list string) (rename_dict : gmap string string)
  : result (gmap string string) :=
  match pairs with
  | [] => Ok rename_dict
  | pair_str :: rest =>
      on ← unpack_pair (PyStr.split ":" pair_str);
      parse_pairs rest
        (<[PyStr.lower (PyStr.strip on.1) := PyStr.strip on.2]> rename_dict)
  end.

Definition parse_rename_columns (rename_str : string) : result (gmap string string) :=
  if PyStr.truthy rename_str
  then parse_pairs (PyStr.split "," rename_str) ∅
  else Ok ∅.

(** [if rename_str: ...] in [convert_csv_to_excel]; [None] when the
    option is not given. *)
Definition rename_stage (rename_str : option string) (df : DataFrame) : result DataFrame :=
  match rename_str with
  | Some s =>
      if PyStr.truthy s
      then rename_dict ← parse_rename_columns s; Ok (rename rename_dict df)
      else Ok df
  | None => Ok df
  end.

(** A run yields its outcome, the file system it leaves and its accesses. *)
Definition run : Type := outcome * FS * list Event.

Definition convert_csv_to_excel
    (input_file output_file : string) (rename_str : option string) (w : FS) : run :=
  match read_csv w input_file with
  | Raise e =>
      (* except FileNotFoundError / EmptyDataError / Exception: exit 1 *)
      if isinstance e CFileNotFoundError then (Exited 1, w, [EvReadCsv input_file])
      else if isinstance e CEmptyDataError then (Exited 1, w, [EvReadCsv input_file])
      else (Exited 1, w, [EvReadCsv input_file])
  | Ok df =>
      match df ← clean_dataframe df; rename_stage rename_str df with
      | Raise e => (Raised e, w, [EvReadCsv input_file])
      | Ok df =>
          match to_excel df output_file w with
          | (Ok _, w') =>
              (Returned, w', [EvReadCsv input_file; EvToExcel output_file])
          | (Raise _, w') =>
              (Exited 1, w', [EvReadCsv input_file; EvToExcel output_file])
          end
      end
  end.

(** [main] after argument parsing: [input], [output] and [rename] are the
    values of [-i], [-o] and [-r]. *)
Definition main (input output : string) (rename : option string) (w : FS) : run :=
  let input_path := Pathlib.of_string input in
  let output_path := Pathlib.of_string output in
  if negb (path_exists w (Pathlib.to_string input_path))
  then (Exited 1, w, [EvExists (Pathlib.to_string input_path)])
  else if negb (String.eqb (Pathlib.suffix output_path) ".xlsx")
  then (Exited 1, w, [EvExists (Pathlib.to_string input_path)])
  else
    match convert_csv_to_excel (Pathlib.to_string input_path)
            (Pathlib.to_string output_path) rename w with
    | (o, w', evs) => (o, w', EvExists (Pathlib.to_string input_path) :: evs)
    end.

(** [parser.parse_args()] with the parser that [main] builds. *)
Variable parse_args : list string → ParsedArgs.

(** [main] from the command line [argv]: [args = parser.parse_args()],
    then the rest of [main] on the parsed values. *)
Definition main_from_argv (argv : list string) (w : FS) : run :=
  match parse_args argv with
  | SystemExit code => (Exited code, w, [])
  | Namespace input output rename => main input output rename w
  end.

End Converter.

(** ** A small concrete world, used to run the program on examples *)

Module Demo.
Import Pandas.

Definition is_digit (c : ascii) : bool :=
  let n := N_of_ascii c in ((48 <=? n) && (n <=? 57))%N.

Definition digit_value (c : ascii) : Z := Z.of_N (N_of_ascii c) - 48.

(** Reads [YYYY-MM-DD] as the number [YYYYMMDD]. *)
Definition parse_iso_date (s : string) : option Z :=
  match list_ascii_of_string s with
  | [y1; y2; y3; y4; "-"%char; m1; m2; "-"%char; d1; d2] =>
      let ds := [y1; y2; y3; y4; m1; m2; d1; d2] in
      if forallb is_digit ds
      then Some (fold_left (λ acc c, 10 * acc + digit_value c)%Z ds 0%Z)
      else None
  | _ => None
  end.

Definition parse_cell (c : Cell) : result Cell :=
  match c with
  | Str EmptyString | NaN | NaT => Ok NaT
  | Str s =>
      match parse_iso_date s with
      | Some d => Ok (Timestamp d)
      | None => Raise ValueError
      end
  | Int z => Ok (Timestamp z)
  | Timestamp t => Ok (Timestamp t)
  | Boolean _ => Raise TypeError
  end.

(** A date parser that succeeds when every cell does and raises the
    first cell's error otherwise. *)
Fixpoint to_datetime (s : Series) : result Series :=
  match s with
  | [] => Ok []
  | c :: rest =>
      t ← parse_cell c; ts ← to_datetime rest; Ok (t :: ts)
  end.

(** A date parser that fails outside [ValueError] and [TypeError]. *)
Definition overflowing_to_datetime (s : Series) : result Series :=
  match s with
  | Int _ :: _ => Raise OtherError
  | _ => to_datetime s
  end.

(** Files: a CSV file is kept as what reading it gives. *)
Inductive File : Type :=
| CsvFile (content : result DataFrame)
| Workbook (sheet : DataFrame)
| PartialWorkbook.

Definition FS : Type := gmap string File.

Definition path_exists (w : FS) (path : string) : bool :=
  bool_decide (is_Some (w !! path)).

Definition read_csv (w : FS) (path : string) : result DataFrame :=
  match w !! path with
  | Some (CsvFile content) => content
  | Some _ => Raise OtherError
  | None => Raise FileNotFoundError
  end.

(** A writer that creates or overwrites the file. *)
Definition to_excel (df : DataFrame) (path : string) (w : FS) : result unit * FS :=
  (Ok (), <[path := Workbook df]> w).

(** A writer that opens the file for writing and fails before the
    workbook is complete. *)
Definition failing_to_excel (df : DataFrame) (path : string) (w : FS)
  : result unit * FS :=
  (Raise OtherError, <[path := PartialWorkbook]> w).

(** An argument parser for the command lines used in the examples. *)
Definition parse_args (argv : list string) : ParsedArgs :=
  match argv with
  | ["-i"; input; "-o"; output] => Namespace input output None
  | ["-i"; input; "-o"; output; "-r"; rename] => Namespace input output (Some rename)
  | ["-h"] => SystemExit 0
  | _ => SystemExit 2
  end.

Definition people : DataFrame :=
  [("Name", [Str "Alice"; Str "Bob"]);
   (" DOB ", [Str "2020-01-01"; Str "2020-02-02"]);
   ("Home Town", [Str "Oslo"; NaN])].

Definition colliding : DataFrame :=
  [("Date", [Str "2020-01-01"]); ("date ", [Str "2020-02-02"])].

Definition disk : FS :=
  {[ "in.csv" := CsvFile (Ok people);
     "empty.csv" := CsvFile (Raise EmptyDataError) ]}.

End Demo.

(** * Properties *)

(** ** Characters and strings *)

Module PyStrFacts.
Import PyStr.

Ltac by_cases_on_char c :=
  destruct c as [[] [] [] [] [] [] [] []]; vm_compute; first [reflexivity | congruence].

Lemma lower_char_idem c : lower_char (lower_char c) = lower_char c.
Proof. by_cases_on_char c. Qed.

Lemma isspace_lower_char c : isspace c = false → isspace (lower_char c) = false.
Proof. by_cases_on_char c. Qed.

Lemma isspace_underscore c : isspace c = false → isspace (underscore c) = false.
Proof. by_cases_on_char c. Qed.

Lemma underscore_idem c : underscore (underscore c) = underscore c.
Proof. by_cases_on_char c. Qed.

Lemma lower_char_underscore c :
  lower_char (underscore (lower_char c)) = underscore (lower_char c).
Proof. by_cases_on_char c. Qed.

Lemma map_chars_compose f g s : map_chars f (map_chars g s) = map_chars (f ∘ g) s.
Proof. induction s as [|c s IH]; simpl; [done | by rewrite IH]. Qed.

Lemma map_chars_ext f g s : (∀ c, f c = g c) → map_chars f s = map_chars g s.
Proof. intros E. induction s as [|c s IH]; simpl; [done | by rewrite E, IH]. Qed.

Lemma lstrip_starts_clean s : starts_clean (lstrip s).
Proof.
  induction s as [|c s IH]; simpl; [done|].
  destruct (isspace c) eqn:E; [done | by simpl].
Qed.

Lemma lstrip_id s : starts_clean s → lstrip s = s.
Proof. destruct s as [|c s]; simpl; [done | by intros ->]. Qed.

Lemma rstrip_starts_clean s : starts_clean s → starts_clean (rstrip s).
Proof.
  destruct s as [|c s]; simpl; [done|]. intros E.
  destruct (rstrip s); [by rewrite E | done].
Qed.

Lemma rstrip_idem s : rstrip (rstrip s) = rstrip s.
Proof.
  induction s as [|c s IH]; simpl; [done|].
  destruct (rstrip s) as [|d r] eqn:E.
  - destruct (isspace c) eqn:Ec; simpl; [done | by rewrite Ec].
  - change (rstrip (String c (String d r))) with
      (match rstrip (String d r) with
       | EmptyString => if isspace c then EmptyString else String c EmptyString
       | r' => String c r'
       end).
    by rewrite IH.
Qed.

Lemma map_chars_starts_clean f s :
  (∀ c, isspace c = false → isspace (f c) = false) →
  starts_clean s → starts_clean (map_chars f s).
Proof. intros Hf. destruct s as [|c s]; simpl; [done | apply Hf]. Qed.

Lemma map_chars_rstrip_id f s :
  (∀ c, isspace c = false → isspace (f c) = false) →
  rstrip s = s → rstrip (map_chars f s) = map_chars f s.
Proof.
  intros Hf. induction s as [|c s IH]; simpl; [done|].
  destruct (rstrip s) as [|d r] eqn:E.
  - destruct (isspace c) eqn:Ec; [done|]. intros [= <-]. simpl.
    by rewrite (Hf c Ec).
  - intros [= Hs]. rewrite (IH Hs). rewrite <- Hs. done.
Qed.

Lemma clean_name_starts_clean s : starts_clean (clean_name s).
Proof.
  apply map_chars_starts_clean; [apply isspace_underscore|].
  apply map_chars_starts_clean; [apply isspace_lower_char|].
  apply rstrip_starts_clean, lstrip_starts_clean.
Qed.

Lemma clean_name_rstrip_id s : rstrip (clean_name s) = clean_name s.
Proof.
  apply map_chars_rstrip_id; [apply isspace_underscore|].
  apply map_chars_rstrip_id; [apply isspace_lower_char|].
  apply rstrip_idem.
Qed.

Lemma strip_clean_name s : strip (clean_name s) = clean_name s.
Proof.
  unfold strip. rewrite (lstrip_id _ (clean_name_starts_clean s)).
  apply clean_name_rstrip_id.
Qed.

Lemma clean_name_idem s : clean_name (clean_name s) = clean_name s.
Proof.
  unfold clean_name at 1. rewrite strip_clean_name.
  unfold clean_name, replace, lower.
  rewrite !map_chars_compose. apply map_chars_ext. intros c. simpl.
  fold (underscore (lower_char c)).
  rewrite lower_char_underscore. apply underscore_idem.
Qed.

End PyStrFacts.

(** ** DataFrame operations *)

Module PandasFacts.
Import Pandas PyStr PyStrFacts.

Lemma cleaned_columns_clean_name df :
  cleaned_columns df = clean_name <$> columns df.
Proof.
  unfold cleaned_columns, str_replace, str_lower, str_strip.
  rewrite <- !list_fmap_compose. done.
Qed.

Lemma relabel_columns (idx : list string) (df : DataFrame) :
  length idx = length df →
  (zip_with (λ n (p : string * Series), (n, p.2)) idx df).*1 = idx.
Proof.
  revert df. induction idx as [|n idx IH]; intros [|p df]; simpl; try done.
  intros [= Hl]. by rewrite IH.
Qed.

Lemma relabel_data (idx : list string) (df : DataFrame) :
  length idx = length df →
  (zip_with (λ n (p : string * Series), (n, p.2)) idx df).*2 = df.*2.
Proof.
  revert df. induction idx as [|n idx IH]; intros [|p df]; simpl; try done.
  intros [= Hl]. by rewrite IH.
Qed.

Lemma set_columns_cleaned df :
  ∃ named, set_columns df (cleaned_columns df) = Ok named
           ∧ columns named = clean_name <$> columns df
           ∧ named.*2 = df.*2.
Proof.
  assert (Hl : length (cleaned_columns df) = length df).
  { rewrite cleaned_columns_clean_name. unfold columns.
    by rewrite !length_fmap. }
  unfold set_columns. rewrite decide_True by done.
  eexists. split; [done|]. split.
  - unfold columns at 1. rewrite relabel_columns by done.
    apply cleaned_columns_clean_name.
  - by apply relabel_data.
Qed.

Lemma columns_fillna v df : columns (fillna v df) = columns df.
Proof. unfold columns, fillna. rewrite <- list_fmap_compose. done. Qed.

Lemma fillna_lookup v (df : DataFrame) i n s :
  df !! i = Some (n, s) →
  fillna v df !! i = Some (n, (λ c, if isna c then v else c) <$> s).
Proof. intros H. unfold fillna. by rewrite list_lookup_fmap, H. Qed.

Lemma columns_setitem df col s : columns (setitem df col s) = columns df.
Proof.
  unfold columns, setitem. rewrite <- list_fmap_compose.
  apply list_fmap_ext. intros i [n t] _. simpl. by case_decide.
Qed.

Lemma setitem_lookup (df : DataFrame) col p i n s :
  df !! i = Some (n, s) →
  setitem df col p !! i = Some (n, if decide (n = col) then p else s).
Proof.
  intros H. unfold setitem. rewrite list_lookup_fmap, H. simpl.
  by case_decide.
Qed.

Lemma getitem_setitem_ne df col p n :
  n ≠ col → getitem (setitem df col p) n = getitem df n.
Proof.
  intros Hn. unfold getitem, setitem.
  induction df as [|[m t] df IH]; [done|].
  rewrite fmap_cons, !filter_cons. simpl.
  repeat case_decide; simplify_eq/=; try done; by rewrite IH.
Qed.

Lemma length_getitem_setitem df col p n :
  length (getitem (setitem df col p) n) = length (getitem df n).
Proof.
  unfold getitem, setitem. rewrite !length_fmap.
  induction df as [|[m t] df IH]; [done|].
  rewrite fmap_cons, !filter_cons. simpl.
  repeat case_decide; simplify_eq/=; try done; by rewrite IH.
Qed.

(** How often a label occurs among the columns. *)
Lemma length_getitem df n :
  length (getitem df n) = length (filter (λ m, m = n) (columns df)).
Proof.
  unfold getitem, columns. rewrite length_fmap.
  induction df as [|[m t] df IH]; [done|].
  rewrite fmap_cons, !filter_cons. simpl.
  repeat case_decide; simplify_eq/=; try done; by rewrite IH.
Qed.

Lemma getitem_elem df i n s :
  df !! i = Some (n, s) → s ∈ getitem df n.
Proof.
  intros H. unfold getitem. apply list_elem_of_fmap.
  exists (n, s). split; [done|]. apply list_elem_of_filter. split; [done|].
  by eapply list_elem_of_lookup_2.
Qed.

(** With one column of that label, [df[col]] is that column. *)
Lemma getitem_unique df i n s s0 :
  df !! i = Some (n, s) → getitem df n = [s0] → s = s0.
Proof.
  intros H E. apply getitem_elem in H. rewrite E in H.
  by apply list_elem_of_singleton in H.
Qed.

Lemma getitem_nonempty df n : n ∈ columns df → getitem df n ≠ [].
Proof.
  unfold columns. intros ([m s] & Hn & Hin)%list_elem_of_fmap.
  simpl in Hn. subst m.
  apply list_elem_of_lookup in Hin as [i Hi].
  apply getitem_elem in Hi. intros E. rewrite E in Hi.
  by apply not_elem_of_nil in Hi.
Qed.

End PandasFacts.

(** ** The normaliser *)

Section NormalizerFacts.
Import Pandas PyStr PyStrFacts PandasFacts.

Variable to_datetime : Series → result Series.

Local Abbreviation caught := is_value_or_type_error.

Lemma columns_date_parsing cols : ∀ df out,
  date_parsing to_datetime cols df = Ok out → columns out = columns df.
Proof.
  induction cols as [|col rest IH]; intros df out; simpl.
  - by intros [= ->].
  - destruct (to_datetime_of to_datetime df col) as [s|e].
    + intros H%IH. by rewrite H, columns_setitem.
    + destruct (caught e); [apply IH | done].
Qed.

Lemma tail_member (n col : string) (rest : list string) (Q : Prop) :
  n ≠ col → (n ∈ rest ∧ Q) ↔ (n ∈ col :: rest ∧ Q).
Proof. intros Hne. rewrite elem_of_cons. tauto. Qed.

(** The loop replaces, among the columns whose label is listed and is
    borne by no other column, exactly those that [to_datetime] accepts. *)
Lemma date_parsing_lookup (cols : list string) : ∀ df : DataFrame,
  (∀ n, length (getitem df n) = 1 → (length (filter (λ m, m = n) cols) ≤ 1)%nat) →
  (∀ n s e, n ∈ cols → getitem df n = [s] →
            to_datetime s = Raise e → caught e = true) →
  (∀ n, n ∈ cols → getitem df n ≠ []) →
  ∃ out, date_parsing to_datetime cols df = Ok out ∧
    ∀ i n s, df !! i = Some (n, s) →
      out !! i =
        Some (n, if decide (n ∈ cols ∧ length (getitem df n) = 1)
                 then match to_datetime s with Ok p => p | Raise _ => s end
                 else s).
Proof.
  induction cols as [|col rest IH]; intros df Hocc Herr Hkey.
  { exists df. split; [done|]. intros i n s H.
    rewrite decide_False; [done|]. intros [[]%not_elem_of_nil _]. }
  assert (Hrest : ∀ n, length (getitem df n) = 1 → n ∈ rest → n ≠ col).
  { intros n Hn Hin ->. specialize (Hocc col Hn).
    rewrite filter_cons_True in Hocc by done. simpl in Hocc.
    assert (Hf : col ∈ filter (λ m, m = col) rest)
      by (by apply list_elem_of_filter).
    destruct (filter (λ m, m = col) rest); [by apply not_elem_of_nil in Hf|].
    simpl in Hocc. lia. }
  assert (Hocc' : ∀ n, length (getitem df n) = 1 →
                       (length (filter (λ m, m = n) rest) ≤ 1)%nat).
  { intros n Hn. specialize (Hocc n Hn). rewrite filter_cons in Hocc.
    case_decide; simpl in Hocc; lia. }
  assert (Hskip : ∃ out, date_parsing to_datetime rest df = Ok out ∧
    ∀ i n s, df !! i = Some (n, s) →
      out !! i =
        Some (n, if decide (n ∈ rest ∧ length (getitem df n) = 1)
                 then match to_datetime s with Ok p => p | Raise _ => s end
                 else s)).
  { apply IH; [done| |].
    - intros n s e Hin. apply Herr. by right.
    - intros n Hin. apply Hkey. by right. }
  simpl. unfold to_datetime_of.
  destruct (getitem df col) as [|s0 [|s1 more]] eqn:Ecol.
  - exfalso. by apply (Hkey col); [left|].
  - (* one column of that label *)
    assert (Hone : length (getitem df col) = 1) by by rewrite Ecol.
    destruct (to_datetime s0) as [p|e] eqn:Ep.
    + destruct (IH (setitem df col p)) as (out & Hout & Hlook).
      * intros n. rewrite length_getitem_setitem. apply Hocc'.
      * intros n s e Hin Hget. apply (Herr n s e); [by right|].
        rewrite <- Hget. symmetry. apply getitem_setitem_ne.
        apply Hrest; [|done].
        by rewrite <- (length_getitem_setitem df col p), Hget.
      * intros n Hin Hnil. apply (f_equal length) in Hnil.
        rewrite length_getitem_setitem in Hnil. simpl in Hnil.
        apply (Hkey n); [by right|]. by apply nil_length_inv.
      * exists out. split; [done|]. intros i n s Hi.
        rewrite (Hlook i n _ (setitem_lookup df col p i n s Hi)).
        rewrite length_getitem_setitem.
        destruct (decide (n = col)) as [->|Hne].
        -- rewrite (getitem_unique _ _ _ _ _ Hi Ecol), Ep.
           rewrite decide_False by (intros [Hin _]; by apply (Hrest col)).
           rewrite decide_True; [done|]. split; [by left | done].
        -- do 2 f_equal. by apply decide_ext, tail_member.
    + rewrite (Herr col s0 e); [|by left|done|done].
      destruct Hskip as (out & Hout & Hlook). exists out. split; [done|].
      intros i n s Hi. rewrite (Hlook i n s Hi).
      destruct (decide (n = col)) as [->|Hne].
      * rewrite (getitem_unique _ _ _ _ _ Hi Ecol), Ep.
        by repeat case_decide.
      * do 2 f_equal. by apply decide_ext, tail_member.
  - (* several columns of that label: a DataFrame argument, ValueError *)
    simpl. destruct Hskip as (out & Hout & Hlook). exists out.
    split; [done|]. intros i n s Hi. rewrite (Hlook i n s Hi).
    destruct (decide (n = col)) as [->|Hne].
    + rewrite Ecol. simpl.
      rewrite !decide_False; [done| |]; by intros [_ ?].
    + do 2 f_equal. by apply decide_ext, tail_member.
Qed.

Lemma relabel_same (df : DataFrame) :
  zip_with (λ n (p : string * Series), (n, p.2)) (columns df) df = df.
Proof.
  unfold columns. induction df as [|[n s] df IH]; [done|].
  rewrite fmap_cons. simpl. f_equal. apply IH.
Qed.

Lemma clean_dataframe_stages df named :
  set_columns df (cleaned_columns df) = Ok named →
  clean_dataframe to_datetime df =
    date_parsing to_datetime (columns (fillna (Str "") named)) (fillna (Str "") named).
Proof. intros H. unfold clean_dataframe. by rewrite H. Qed.

(** C2: column-name cleaning gives every column, in place, the label
    obtained from its old label by strip, then lower, then replacing each
    space by an underscore; the columns keep their order and their cells,
    and the later stages of the normaliser keep these labels. *)
Theorem column_names_cleaned (df : DataFrame) :
  ∃ named,
    set_columns df (cleaned_columns df) = Ok named
    ∧ columns named = (λ n, replace " " "_" (lower (strip n))) <$> columns df
    ∧ length named = length df
    ∧ (∀ i n, columns df !! i = Some n →
              columns named !! i = Some (replace " " "_" (lower (strip n))))
    ∧ named.*2 = df.*2
    ∧ (∀ out, clean_dataframe to_datetime df = Ok out →
              columns out = columns named).
Proof.
  destruct (set_columns_cleaned df) as (named & Hset & Hcols & Hdata).
  exists named. split_and!; try done.
  - apply (f_equal length) in Hdata. by rewrite !length_fmap in Hdata.
  - intros i n Hi. rewrite Hcols, list_lookup_fmap, Hi. done.
  - intros out. rewrite (clean_dataframe_stages _ _ Hset).
    intros H%columns_date_parsing. by rewrite H, columns_fillna.
Qed.

(** C9: cleaning the column names a second time changes nothing, on the
    labels and on the table. *)
Theorem column_name_cleaning_idempotent (df : DataFrame) :
  (∀ idx : list string,
     str_replace " " "_" (str_lower (str_strip
       (str_replace " " "_" (str_lower (str_strip idx)))))
     = str_replace " " "_" (str_lower (str_strip idx)))
  ∧ ∃ named,
      set_columns df (cleaned_columns df) = Ok named
      ∧ cleaned_columns named = columns named
      ∧ set_columns named (cleaned_columns named) = Ok named.
Proof.
  assert (Hidx : ∀ idx : list string,
     str_replace " " "_" (str_lower (str_strip
       (str_replace " " "_" (str_lower (str_strip idx)))))
     = str_replace " " "_" (str_lower (str_strip idx))).
  { intros idx. unfold str_replace, str_lower, str_strip.
    rewrite <- !list_fmap_compose. apply list_fmap_ext. intros i n _.
    apply clean_name_idem. }
  split; [done|].
  destruct (set_columns_cleaned df) as (named & Hset & Hcols & Hdata).
  exists named. split; [done|].
  assert (Hsame : cleaned_columns named = columns named).
  { rewrite cleaned_columns_clean_name, Hcols, <- list_fmap_compose.
    apply list_fmap_ext. intros i n _. apply clean_name_idem. }
  split; [done|]. rewrite Hsame. unfold set_columns.
  rewrite decide_True by (unfold columns; by rewrite length_fmap).
  by rewrite relabel_same.
Qed.

(** C5: after the labels are cleaned and before the dates are parsed,
    one pass replaces every missing cell by the empty string and leaves
    every other cell, every label and every length alone; afterwards no
    cell of any column is missing. *)
Theorem missing_values_filled (df : DataFrame) :
  ∃ named,
    set_columns df (cleaned_columns df) = Ok named
    ∧ clean_dataframe to_datetime df =
        date_parsing to_datetime
          (columns (fillna (Str "") named)) (fillna (Str "") named)
    ∧ columns (fillna (Str "") named) = columns named
    ∧ (∀ i n s c, fillna (Str "") named !! i = Some (n, s) →
                  c ∈ s → isna c = false)
    ∧ (∀ i n s, named !! i = Some (n, s) →
         ∃ s', fillna (Str "") named !! i = Some (n, s')
               ∧ length s' = length s
               ∧ ∀ j c, s !! j = Some c →
                        s' !! j = Some (if isna c then Str "" else c)).
Proof.
  destruct (set_columns_cleaned df) as (named & Hset & _ & _).
  exists named. split_and!; try done.
  - by apply clean_dataframe_stages.
  - apply columns_fillna.
  - intros i n s c Hi Hc. unfold fillna in Hi.
    rewrite list_lookup_fmap in Hi.
    destruct (named !! i) as [[m t]|]; simplify_eq/=.
    apply list_elem_of_fmap in Hc as (c0 & -> & _). by destruct c0.
  - intros i n s Hi. eexists. split; [by apply fillna_lookup|].
    split; [by rewrite length_fmap|].
    intros j c Hj. by rewrite list_lookup_fmap, Hj.
Qed.

(** C1 (as amended): for every column whose cleaned label no other
    column bears, date coercion is all or nothing.  When [to_datetime]
    fails, where it fails, only with a value or type error, the
    normaliser returns, and such a column holds the parsed values if
    [to_datetime] accepted it and exactly its filled values if not. *)
Theorem date_coercion_all_or_nothing (df named : DataFrame) :
  set_columns df (cleaned_columns df) = Ok named →
  (∀ n s e, getitem (fillna (Str "") named) n = [s] →
            to_datetime s = Raise e → is_value_or_type_error e = true) →
  ∃ out,
    clean_dataframe to_datetime df = Ok out
    ∧ columns out = columns (fillna (Str "") named)
    ∧ ∀ i n s,
        fillna (Str "") named !! i = Some (n, s) →
        length (getitem (fillna (Str "") named) n) = 1 →
        (∀ p, to_datetime s = Ok p → out !! i = Some (n, p))
        ∧ (∀ e, to_datetime s = Raise e → out !! i = Some (n, s)).
Proof.
  intros Hset Herr. rewrite (clean_dataframe_stages _ _ Hset).
  set (filled := fillna (Str "") named) in *.
  destruct (date_parsing_lookup (columns filled) filled) as (out & Hout & Hlook).
  - intros n Hn. by rewrite <- length_getitem, Hn.
  - intros n s e _. apply Herr.
  - intros n. apply getitem_nonempty.
  - exists out. split; [done|]. split; [by eapply columns_date_parsing|].
    intros i n s Hi Hone. rewrite (Hlook i n s Hi).
    rewrite decide_True.
    + split; [by intros p -> | by intros e ->].
    + split; [|done]. unfold columns. apply list_elem_of_fmap.
      exists (n, s). split; [done|]. by eapply list_elem_of_lookup_2.
Qed.

End NormalizerFacts.

(** ** The rename specification *)

Module RenameFacts.
Import Pandas PyStr.

Lemma split_no_sep c s :
  contains s c = false → split c s = [s].
Proof.
  induction s as [|x s IH]; simpl; [done|].
  destruct (Ascii.eqb x c); [done|]. simpl. intros Hs. by rewrite IH.
Qed.

Lemma split_app_sep c a b :
  contains a c = false →
  split c (a ++ String c b) = a :: split c b.
Proof.
  induction a as [|x a IH]; simpl.
  - intros _. by rewrite Ascii.eqb_refl.
  - destruct (Ascii.eqb x c); [done|]. simpl. intros Hs. by rewrite IH.
Qed.

Lemma contains_app a b c :
  contains (a ++ b) c = contains a c || contains b c.
Proof.
  induction a as [|x a IH]; simpl; [done|]. by rewrite IH, orb_assoc.
Qed.

(** One more piece than separators. *)
Lemma length_split c s : length (split c s) = S (count s c).
Proof.
  induction s as [|x s IH]; [done|]. simpl.
  destruct (Ascii.eqb x c); simpl; [by rewrite IH|].
  rewrite <- IH. by destruct (split c s).
Qed.

(** A piece that does not split in two stops the parse, wherever it is. *)
Lemma parse_pairs_malformed pairs piece d :
  piece ∈ pairs → length (split ":" piece) ≠ 2 →
  parse_pairs pairs d = Raise ValueError.
Proof.
  revert d. induction pairs as [|p pairs IH]; intros d Hin Hlen.
  { by apply not_elem_of_nil in Hin. }
  simpl. destruct (split ":" p) as [|a [|b [|? ?]]] eqn:E; try done.
  simpl. apply IH; [|done].
  apply elem_of_cons in Hin as [->|Hin]; [|done].
  by rewrite E in Hlen.
Qed.

Lemma rename_lookup (mapper : gmap string string) (df : DataFrame) i n s :
  df !! i = Some (n, s) →
  rename mapper df !! i = Some (default n (mapper !! n), s).
Proof. intros H. unfold rename. by rewrite list_lookup_fmap, H. Qed.

Lemma rename_data (mapper : gmap string string) (df : DataFrame) :
  (rename mapper df).*2 = df.*2.
Proof. unfold rename. rewrite <- list_fmap_compose. done. Qed.

Lemma rename_insert_absent (mapper : gmap string string) (df : DataFrame) k v :
  k ∉ columns df → rename (<[k := v]> mapper) df = rename mapper df.
Proof.
  intros Hk. unfold rename. apply list_fmap_ext. intros i [n s] Hi. simpl.
  rewrite lookup_insert_ne; [done|]. intros ->. apply Hk.
  unfold columns. apply list_elem_of_fmap. exists (n, s).
  split; [done|]. by eapply list_elem_of_lookup_2.
Qed.

Lemma rename_empty (df : DataFrame) : rename ∅ df = df.
Proof.
  unfold rename. rewrite <- (list_fmap_id df) at 2.
  apply list_fmap_ext. intros i [n s] _. simpl. by rewrite lookup_empty.
Qed.

Lemma split_join (items : list string) :
  items ≠ [] →
  (∀ it, it ∈ items → contains it "," = false) →
  split "," (join "," items) = items.
Proof.
  induction items as [|p [|q rest] IH]; intros Hne Hsep; [done| |].
  - simpl. apply split_no_sep, Hsep. by left.
  - change (join "," (p :: q :: rest)) with (p ++ String "," (join "," (q :: rest))).
    rewrite split_app_sep by (apply Hsep; by left).
    rewrite IH; [done|done|]. intros it Hit. apply Hsep. by right.
Qed.

Lemma parse_pairs_formatted (pairs : list (string * string)) : ∀ d,
  (∀ o n, (o, n) ∈ pairs → contains o ":" = false ∧ contains n ":" = false) →
  parse_pairs ((λ on, on.1 ++ ":" ++ on.2) <$> pairs) d
  = Ok (foldl (λ d on, <[lower (strip on.1) := strip on.2]> d) d pairs).
Proof.
  induction pairs as [|[o n] pairs IH]; intros d Hsep; [done|].
  rewrite fmap_cons. simpl.
  destruct (Hsep o n) as [Ho Hn]; [by left|].
  change (o ++ ":" ++ n) with (o ++ String ":" n).
  rewrite split_app_sep by done. rewrite split_no_sep by done. simpl.
  apply IH. intros o' n' Hin. apply Hsep. by right.
Qed.

End RenameFacts.

Section RenameClaims.
Import Pandas PyStr RenameFacts.

(** C4: a specification built from [old:new] pairs joined by commas is
    parsed into the mapping that sends each trimmed, lowercased [old] to
    the trimmed [new], a later pair overriding an earlier one with the
    same key; applying a mapping gives each column whose label is a key
    the mapped label as it stands and leaves every other label, and
    every column's cells, alone; cleaned columns [full_name, dob] with
    the specification [Full_Name:Name] become [Name, dob]; and the empty
    specification gives the empty mapping and changes nothing. *)
Theorem rename_specification_applied :
  (∀ pairs : list (string * string),
     (∀ o n, (o, n) ∈ pairs →
        (contains o "," = false ∧ contains o ":" = false)
        ∧ (contains n "," = false ∧ contains n ":" = false)) →
     parse_rename_columns (join "," ((λ on, on.1 ++ ":" ++ on.2) <$> pairs))
     = Ok (foldl (λ d on, <[lower (strip on.1) := strip on.2]> d) ∅ pairs))
  ∧ (∀ (mapper : gmap string string) (df : DataFrame) i n s,
       df !! i = Some (n, s) →
       rename mapper df !! i =
         Some (match mapper !! n with Some new => new | None => n end, s))
  ∧ (∀ (mapper : gmap string string) (df : DataFrame),
       length (rename mapper df) = length df)
  ∧ (∀ s1 s2 : Series,
       rename_stage (Some "Full_Name:Name") [("full_name", s1); ("dob", s2)]
       = Ok [("Name", s1); ("dob", s2)])
  ∧ parse_rename_columns "" = Ok ∅
  ∧ (∀ df : DataFrame, rename_stage (Some "") df = Ok df ∧ rename ∅ df = df).
Proof.
  split_and!.
  - intros pairs Hsep. unfold parse_rename_columns.
    destruct pairs as [|[o n] pairs]; [done|].
    assert (Htruthy : truthy (join "," ((λ on : string * string,
              on.1 ++ ":" ++ on.2) <$> (o, n) :: pairs)) = true).
    { rewrite fmap_cons. simpl.
      destruct ((λ on : string * string, on.1 ++ ":" ++ on.2) <$> pairs);
        by destruct o. }
    rewrite Htruthy. rewrite split_join.
    + apply parse_pairs_formatted. intros o' n' Hin.
      destruct (Hsep o' n' Hin) as [[_ ?] [_ ?]]. done.
    + by rewrite fmap_cons.
    + intros it ([o' n'] & -> & Hin)%list_elem_of_fmap.
      destruct (Hsep o' n' Hin) as [[Ho _] [Hn _]]. simpl.
      change (o' ++ ":" ++ n') with (o' ++ String ":" n').
      rewrite contains_app, Ho. simpl. apply Hn.
  - intros mapper df i n s Hi. rewrite (rename_lookup _ _ _ _ _ Hi).
    by destruct (mapper !! n).
  - intros mapper df. unfold rename. by rewrite length_fmap.
  - intros s1 s2. vm_compute. reflexivity.
  - reflexivity.
  - intros df. split; [reflexivity | apply rename_empty].
Qed.

(** C10: applying a mapping only relabels: for every table and every
    mapping the columns keep their places and their cells and the number
    of columns is the same, a key that is the label of no column has no
    effect, and with a mapping parsed from a specification the rename
    stage returns the relabelled table and raises nothing. *)
Theorem rename_only_relabels (mapper : gmap string string) (df : DataFrame) :
  (rename mapper df).*2 = df.*2
  ∧ length (rename mapper df) = length df
  ∧ (∀ i n s, df !! i = Some (n, s) →
              ∃ n', rename mapper df !! i = Some (n', s))
  ∧ (∀ k v, k ∉ columns df → rename (<[k := v]> mapper) df = rename mapper df)
  ∧ ((∀ k, is_Some (mapper !! k) → k ∉ columns df) → rename mapper df = df)
  ∧ (∀ rename_str, parse_rename_columns rename_str = Ok mapper →
                   rename_stage (Some rename_str) df = Ok (rename mapper df)).
Proof.
  split_and!.
  - apply rename_data.
  - unfold rename. by rewrite length_fmap.
  - intros i n s Hi. eexists. by apply rename_lookup.
  - intros k v. apply rename_insert_absent.
  - intros Hkeys. unfold rename. rewrite <- (list_fmap_id df) at 2.
    apply list_fmap_ext. intros i [n s] Hi. simpl.
    destruct (mapper !! n) as [new|] eqn:E; [|done].
    exfalso. apply (Hkeys n); [by rewrite E|].
    unfold columns. apply list_elem_of_fmap. exists (n, s).
    split; [done|]. by eapply list_elem_of_lookup_2.
  - intros rename_str Hparse.
    unfold rename_stage. destruct (truthy rename_str) eqn:E.
    + by rewrite Hparse.
    + unfold parse_rename_columns in Hparse. rewrite E in Hparse.
      injection Hparse as <-. by rewrite rename_empty.
Qed.

End RenameClaims.

(** ** Paths *)

Module PathFacts.
Import PyStr Pathlib.

Lemma endswith_refl s : endswith s s = true.
Proof.
  destruct s as [|c s]; [done|].
  change (endswith (String c s) (String c s)) with
    (String.eqb (String c s) (String c s) || endswith s (String c s)).
  by rewrite String.eqb_refl.
Qed.

Lemma endswith_tail c s t : endswith s t = true → endswith (String c s) t = true.
Proof.
  intros H.
  change (endswith (String c s) t) with
    (String.eqb (String c s) t || endswith s t).
  rewrite H. apply orb_true_r.
Qed.

Lemma endswith_drop i : ∀ s t,
  drop i s = t → t ≠ "" → endswith s t = true.
Proof.
  induction i as [|i IH]; intros s t.
  - simpl. intros -> _. apply endswith_refl.
  - destruct s as [|c s]; simpl drop; [congruence|].
    intros H Ht. apply endswith_tail. by apply IH.
Qed.

Lemma endswith_app a b t : endswith b t = true → endswith (a ++ b) t = true.
Proof.
  intros H. induction a as [|c a IH]; [done|]. by apply endswith_tail.
Qed.

Lemma endswith_join (ps : list string) t :
  ps ≠ [] → endswith (List.last ps "") t = true →
  endswith (join "/" ps) t = true.
Proof.
  induction ps as [|p [|q rest] IH]; intros Hne H; [done|done|].
  change (join "/" (p :: q :: rest)) with (p ++ "/" ++ join "/" (q :: rest)).
  apply endswith_app, endswith_app, IH; done.
Qed.

(** A path whose suffix is [.xlsx] is written with [.xlsx] at its end. *)
Lemma suffix_endswith p :
  suffix p = ".xlsx" → endswith (to_string p) ".xlsx" = true.
Proof.
  unfold suffix. intros H.
  assert (Hname : endswith (name p) ".xlsx" = true).
  { destruct (rfind "." (name p)) as [i|]; [|done].
    destruct ((0 <? i)%nat && (i <? String.length (name p) - 1)%nat); [|done].
    by eapply endswith_drop. }
  unfold name in Hname. unfold to_string.
  destruct (parts p) as [|q ps] eqn:E; [done|].
  assert (endswith (root p ++ join "/" (q :: ps)) ".xlsx" = true) as Hend.
  { apply endswith_app, endswith_join; done. }
  by destruct (root p).
Qed.

End PathFacts.

(** ** The conversion and the command line *)

Section RunClaims.
Import Pandas PyStr RenameFacts PathFacts.

Variable FS : Type.
Variable path_exists : FS → string → bool.
Variable read_csv : FS → string → result DataFrame.
Variable to_datetime : Series → result Series.
Variable to_excel : DataFrame → string → FS → result unit * FS.

Local Abbreviation convert := (convert_csv_to_excel FS read_csv to_datetime to_excel).
Local Abbreviation run_main := (main FS path_exists read_csv to_datetime to_excel).

Lemma malformed_raises rename_str piece :
  rename_str ≠ "" → piece ∈ split "," rename_str → count piece ":" ≠ 1 →
  parse_rename_columns rename_str = Raise ValueError.
Proof.
  intros Hne Hin Hcount. unfold parse_rename_columns.
  destruct rename_str as [|c s]; [done|]. simpl truthy. cbv iota.
  apply (parse_pairs_malformed _ piece); [done|].
  rewrite length_split. lia.
Qed.

(** C3: a non-empty rename specification with a comma-separated piece
    that does not hold exactly one colon makes the parser raise
    [ValueError]; the conversion then never returns normally, never calls
    the writer and leaves the file system as it was, the exception itself
    leaving the conversion whenever reading and cleaning succeeded; the
    process ends with status 1. *)
Theorem malformed_rename_aborts
    (rename_str piece input output : string) (w : FS) :
  rename_str ≠ "" →
  piece ∈ split "," rename_str →
  count piece ":" ≠ 1 →
  parse_rename_columns rename_str = Raise ValueError
  ∧ (∃ o, convert input output (Some rename_str) w = (o, w, [EvReadCsv input])
          ∧ o ≠ Returned ∧ exit_status o = 1%Z
          ∧ (∀ df df', read_csv w input = Ok df →
                       clean_dataframe to_datetime df = Ok df' →
                       o = Raised ValueError))
  ∧ (∃ o evs, run_main input output (Some rename_str) w = (o, w, evs)
              ∧ exit_status o = 1%Z
              ∧ ∀ path, EvToExcel path ∉ evs).
Proof.
  intros Hne Hin Hcount.
  pose proof (malformed_raises _ _ Hne Hin Hcount) as Hparse.
  assert (Hstage : ∀ df, rename_stage (Some rename_str) df = Raise ValueError).
  { intros df. unfold rename_stage. destruct rename_str; [done|].
    simpl truthy. cbv iota. by rewrite Hparse. }
  assert (Hconv : ∀ input_file output_file,
    ∃ o, convert input_file output_file (Some rename_str) w
           = (o, w, [EvReadCsv input_file])
         ∧ o ≠ Returned ∧ exit_status o = 1%Z
         ∧ (∀ df df', read_csv w input_file = Ok df →
                      clean_dataframe to_datetime df = Ok df' →
                      o = Raised ValueError)).
  { intros input_file output_file. unfold convert_csv_to_excel.
    destruct (read_csv w input_file) as [df|e].
    - destruct (clean_dataframe to_datetime df) as [df'|e] eqn:Ec;
        unfold mbind, result_bind.
      + rewrite Hstage. eexists. split_and!; done.
      + eexists. split_and!; try done. intros df0 df'' [= <-]. congruence.
    - exists (Exited 1). split_and!; try done. by repeat case_match. }
  split_and!; [done|apply Hconv|].
  unfold main. destruct (path_exists w _).
  - simpl negb. cbv iota. destruct (_ =? ".xlsx")%string.
    + simpl negb. cbv iota.
      destruct (Hconv (Pathlib.to_string (Pathlib.of_string input))
                      (Pathlib.to_string (Pathlib.of_string output)))
        as (o & -> & _ & Hexit & _).
      eexists _, _. split_and!; try done.
      intros path. rewrite !elem_of_cons. intros [?|[?|[]%not_elem_of_nil]]; done.
    + eexists _, _. split_and!; try done.
      intros path. rewrite !elem_of_cons. intros [?|[]%not_elem_of_nil]; done.
  - eexists _, _. split_and!; try done.
    intros path. rewrite !elem_of_cons. intros [?|[]%not_elem_of_nil]; done.
Qed.

(** C6: when reading the input raises pandas' [EmptyDataError] (a file
    with nothing to parse: no bytes, or no columns), the conversion exits
    with status 1 after that one read, the writer is never called and the
    file system is as it was; so does the whole program. *)
Theorem empty_input_exits (input output : string) (rename : option string) (w : FS) :
  read_csv w (Pathlib.to_string (Pathlib.of_string input)) = Raise EmptyDataError →
  (∀ output_file,
     convert (Pathlib.to_string (Pathlib.of_string input)) output_file rename w
     = (Exited 1, w, [EvReadCsv (Pathlib.to_string (Pathlib.of_string input))]))
  ∧ (∃ evs, run_main input output rename w = (Exited 1, w, evs)
            ∧ ∀ path, EvToExcel path ∉ evs).
Proof.
  intros Hread.
  assert (Hconv : ∀ output_file,
     convert (Pathlib.to_string (Pathlib.of_string input)) output_file rename w
     = (Exited 1, w, [EvReadCsv (Pathlib.to_string (Pathlib.of_string input))])).
  { intros output_file. unfold convert_csv_to_excel. by rewrite Hread. }
  split; [done|]. unfold main. rewrite Hconv.
  destruct (negb (path_exists w _)); [|destruct (negb _)];
    (eexists; split; [done|]); intros path Hin;
    repeat (apply elem_of_cons in Hin as [?|Hin]; [done|]);
    by apply not_elem_of_nil in Hin.
Qed.

(** C7 (as amended): when the writer fails, the conversion exits with
    status 1 and hands on the file system exactly as the writer left it;
    nothing is removed or put back at the output path. *)
Theorem failed_write_exits
    (input_file output_file : string) (rename_str : option string)
    (w w' : FS) (df df' : DataFrame) (e : exn) :
  read_csv w input_file = Ok df →
  (cleaned ← clean_dataframe to_datetime df; rename_stage rename_str cleaned)
    = Ok df' →
  to_excel df' output_file w = (Raise e, w') →
  convert input_file output_file rename_str w
  = (Exited 1, w', [EvReadCsv input_file; EvToExcel output_file]).
Proof.
  intros Hread Hclean Hwrite. unfold convert_csv_to_excel.
  by rewrite Hread, Hclean, Hwrite.
Qed.

(** C8 (as amended): when the output path, as [Path] writes it, does not
    end with [.xlsx], the program exits with status 1; the run is the
    existence test of the input path and nothing else, so the input is
    never read, the writer is never called and the file system is as it
    was. *)
Theorem wrong_extension_rejected
    (input output : string) (rename : option string) (w : FS) :
  endswith (Pathlib.to_string (Pathlib.of_string output)) ".xlsx" = false →
  run_main input output rename w
  = (Exited 1, w, [EvExists (Pathlib.to_string (Pathlib.of_string input))])
  ∧ ∀ o w' evs, run_main input output rename w = (o, w', evs) →
      exit_status o = 1%Z ∧ w' = w
      ∧ ∀ path, (EvReadCsv path ∉ evs) ∧ (EvToExcel path ∉ evs).
Proof.
  intros Hend.
  assert (Hrun : run_main input output rename w
    = (Exited 1, w, [EvExists (Pathlib.to_string (Pathlib.of_string input))])).
  { unfold main. destruct (path_exists w _); [|done]. simpl negb. cbv iota.
    destruct (String.eqb_spec (Pathlib.suffix (Pathlib.of_string output)) ".xlsx")
      as [Hsuf|_]; [|done].
    apply suffix_endswith in Hsuf. congruence. }
  split; [done|]. intros o w' evs. rewrite Hrun. intros [= <- <- <-].
  split_and!; try done.
  intros path. split; intros [?|[]%not_elem_of_nil]%elem_of_cons; done.
Qed.

End RunClaims.

(** ** The program run on the small world *)

Section Runs.
Import Pandas PyStr.

Lemma demo_to_datetime_errors (s : Series) (e : exn) :
  Demo.to_datetime s = Raise e → is_value_or_type_error e = true.
Proof.
  revert e. induction s as [|c s IH]; intros e; simpl; [done|].
  destruct (Demo.parse_cell c) as [t|e'] eqn:Ec; simpl.
  - destruct (Demo.to_datetime s) as [ts|e'']; simpl; [done|].
    intros [= <-]. by apply IH.
  - intros [= <-]. destruct c as [| |[|] | | |]; simpl in Ec; try done.
    + destruct (Demo.parse_iso_date _); by simplify_eq.
    + by simplify_eq.
Qed.

(** An error of [to_datetime] outside [ValueError] and [TypeError] is not
    caught by the loop and leaves [clean_dataframe]. *)
Example other_error_propagates :
  clean_dataframe Demo.overflowing_to_datetime [("n", [Int 1])] = Raise OtherError.
Proof. vm_compute. reflexivity. Qed.

(** C1, where the claim fails: the headers [Date] and [date ] both clean
    to [date]; every cell of both columns parses, and both columns stay
    strings. *)
Lemma date_coercion_colliding_labels :
  set_columns Demo.colliding (cleaned_columns Demo.colliding)
    = Ok [("date", [Str "2020-01-01"]); ("date", [Str "2020-02-02"])]
  ∧ fillna (Str "") [("date", [Str "2020-01-01"]); ("date", [Str "2020-02-02"])]
    = [("date", [Str "2020-01-01"]); ("date", [Str "2020-02-02"])]
  ∧ Demo.to_datetime [Str "2020-01-01"] = Ok [Timestamp 20200101]
  ∧ Demo.to_datetime [Str "2020-02-02"] = Ok [Timestamp 20200202]
  ∧ clean_dataframe Demo.to_datetime Demo.colliding
    = Ok [("date", [Str "2020-01-01"]); ("date", [Str "2020-02-02"])].
Proof. repeat split; vm_compute; reflexivity. Qed.

Lemma date_coercion_all_or_nothing_witness :
  ∃ out, clean_dataframe Demo.to_datetime Demo.people = Ok out
         ∧ out !! 1 = Some ("dob", [Timestamp 20200101; Timestamp 20200202])
         ∧ out !! 0 = Some ("name", [Str "Alice"; Str "Bob"]).
Proof.
  destruct (date_coercion_all_or_nothing Demo.to_datetime Demo.people
              [("name", [Str "Alice"; Str "Bob"]);
               ("dob", [Str "2020-01-01"; Str "2020-02-02"]);
               ("home_town", [Str "Oslo"; NaN])])
    as (out & Hout & _ & Hcell).
  - vm_compute. reflexivity.
  - intros n s e _. apply demo_to_datetime_errors.
  - exists out. split; [exact Hout|]. split.
    + apply (Hcell 1 "dob" [Str "2020-01-01"; Str "2020-02-02"]);
        vm_compute; reflexivity.
    + apply (proj2 (Hcell 0 "name" [Str "Alice"; Str "Bob"]
                      ltac:(vm_compute; reflexivity)
                      ltac:(vm_compute; reflexivity)) ValueError).
      vm_compute. reflexivity.
Defined.

Lemma column_names_cleaned_witness :
  ∃ named, set_columns Demo.people (cleaned_columns Demo.people) = Ok named
           ∧ columns named = ["name"; "dob"; "home_town"].
Proof.
  destruct (column_names_cleaned Demo.to_datetime Demo.people)
    as (named & Hset & Hcols & _).
  exists named. split; [exact Hset|]. rewrite Hcols. vm_compute. reflexivity.
Defined.

Lemma missing_values_filled_witness :
  ∃ named, set_columns Demo.people (cleaned_columns Demo.people) = Ok named
           ∧ ∀ i n s c, fillna (Str "") named !! i = Some (n, s) →
                        c ∈ s → isna c = false.
Proof.
  destruct (missing_values_filled Demo.to_datetime Demo.people)
    as (named & Hset & _ & _ & Hfilled & _).
  exists named. split; [exact Hset | exact Hfilled].
Defined.

Lemma malformed_rename_aborts_witness :
  parse_rename_columns "a-b,c:d" = Raise ValueError
  ∧ ∃ o, convert_csv_to_excel Demo.FS Demo.read_csv Demo.to_datetime Demo.to_excel
           "in.csv" "out.xlsx" (Some "a-b,c:d") Demo.disk
         = (o, Demo.disk, [EvReadCsv "in.csv"])
         ∧ o = Raised ValueError.
Proof.
  destruct (malformed_rename_aborts Demo.FS Demo.path_exists Demo.read_csv
              Demo.to_datetime Demo.to_excel
              "a-b,c:d" "a-b" "in.csv" "out.xlsx" Demo.disk)
    as (Hparse & (o & Hrun & _ & _ & Hraised) & _).
  - discriminate.
  - vm_compute. left.
  - vm_compute. lia.
  - split; [exact Hparse|]. exists o. split; [exact Hrun|].
    apply (Hraised Demo.people
             [("name", [Str "Alice"; Str "Bob"]);
              ("dob", [Timestamp 20200101; Timestamp 20200202]);
              ("home_town", [Str "Oslo"; Str ""])]);
      vm_compute; reflexivity.
Defined.

Lemma rename_specification_applied_witness :
  parse_rename_columns "full_name:name,dob:date_of_birth"
  = Ok (<["dob" := "date_of_birth"]> (<["full_name" := "name"]> ∅)).
Proof.
  apply (proj1 rename_specification_applied
           [("full_name", "name"); ("dob", "date_of_birth")]).
  intros o n [[= -> ->]|[[= -> ->]|[]%not_elem_of_nil]%elem_of_cons]%elem_of_cons;
    vm_compute; done.
Defined.

Lemma empty_input_exits_witness :
  ∃ evs, main Demo.FS Demo.path_exists Demo.read_csv Demo.to_datetime Demo.to_excel
           "empty.csv" "out.xlsx" None Demo.disk
         = (Exited 1, Demo.disk, evs)
         ∧ ∀ path, EvToExcel path ∉ evs.
Proof.
  apply (empty_input_exits Demo.FS Demo.path_exists Demo.read_csv
           Demo.to_datetime Demo.to_excel "empty.csv" "out.xlsx" None Demo.disk).
  vm_compute. reflexivity.
Defined.

(** C7, where the claim fails: the writer opens [out.xlsx] and fails;
    the program exits with status 1 and the partial file stays. *)
Lemma failed_write_leaves_partial_file :
  Demo.disk !! "out.xlsx" = None
  ∧ ∃ df w' evs,
      Demo.failing_to_excel df "out.xlsx" Demo.disk = (Raise OtherError, w')
      ∧ main Demo.FS Demo.path_exists Demo.read_csv Demo.to_datetime
          Demo.failing_to_excel "in.csv" "out.xlsx" None Demo.disk
        = (Exited 1, w', evs)
      ∧ w' !! "out.xlsx" = Some Demo.PartialWorkbook.
Proof.
  split; [vm_compute; reflexivity|].
  exists [("name", [Str "Alice"; Str "Bob"]);
          ("dob", [Timestamp 20200101; Timestamp 20200202]);
          ("home_town", [Str "Oslo"; Str ""])],
         (<["out.xlsx" := Demo.PartialWorkbook]> Demo.disk),
         [EvExists "in.csv"; EvReadCsv "in.csv"; EvToExcel "out.xlsx"].
  split_and!; vm_compute; reflexivity.
Qed.

Lemma failed_write_exits_witness :
  convert_csv_to_excel Demo.FS Demo.read_csv Demo.to_datetime Demo.failing_to_excel
    "in.csv" "out.xlsx" None Demo.disk
  = (Exited 1, <["out.xlsx" := Demo.PartialWorkbook]> Demo.disk,
     [EvReadCsv "in.csv"; EvToExcel "out.xlsx"]).
Proof.
  apply (failed_write_exits Demo.FS Demo.read_csv Demo.to_datetime
           Demo.failing_to_excel "in.csv" "out.xlsx" None Demo.disk
           (<["out.xlsx" := Demo.PartialWorkbook]> Demo.disk)
           Demo.people
           [("name", [Str "Alice"; Str "Bob"]);
            ("dob", [Timestamp 20200101; Timestamp 20200202]);
            ("home_town", [Str "Oslo"; Str ""])]
           OtherError).
  - vm_compute. reflexivity.
  - vm_compute. reflexivity.
  - reflexivity.
Defined.

(** C8, where the claim fails: the output argument [out.xlsx/] does not
    end with [.xlsx], yet [Path] drops the slash, the suffix test passes
    and the program reads the input and writes [out.xlsx]. *)
Lemma trailing_slash_accepted :
  endswith "out.xlsx/" ".xlsx" = false
  ∧ main Demo.FS Demo.path_exists Demo.read_csv Demo.to_datetime Demo.to_excel
      "in.csv" "out.xlsx/" None Demo.disk
    = (Returned,
       <["out.xlsx" := Demo.Workbook
           [("name", [Str "Alice"; Str "Bob"]);
            ("dob", [Timestamp 20200101; Timestamp 20200202]);
            ("home_town", [Str "Oslo"; Str ""])]]> Demo.disk,
       [EvExists "in.csv"; EvReadCsv "in.csv"; EvToExcel "out.xlsx"]).
Proof. split; vm_compute; reflexivity. Qed.

Lemma wrong_extension_rejected_witness :
  main Demo.FS Demo.path_exists Demo.read_csv Demo.to_datetime Demo.to_excel
    "in.csv" "report.csv" None Demo.disk
  = (Exited 1, Demo.disk, [EvExists "in.csv"]).
Proof.
  apply (wrong_extension_rejected Demo.FS Demo.path_exists Demo.read_csv
           Demo.to_datetime Demo.to_excel "in.csv" "report.csv" None Demo.disk).
  vm_compute. reflexivity.
Defined.

Lemma rename_only_relabels_witness :
  rename_stage (Some "dob:date_of_birth")
    [("name", [Str "Alice"]); ("dob", [Timestamp 20200101])]
  = Ok [("name", [Str "Alice"]); ("date_of_birth", [Timestamp 20200101])].
Proof.
  destruct (rename_only_relabels {["dob" := "date_of_birth"]}
              [("name", [Str "Alice"]); ("dob", [Timestamp 20200101])])
    as (_ & _ & _ & _ & _ & Hstage).
  rewrite (Hstage "dob:date_of_birth").
  - vm_compute. reflexivity.
  - vm_compute. reflexivity.
Defined.

End Runs.

(** * Further properties of the program *)

(** ** Cleaned labels *)

Module LabelFacts.
Import PyStr PyStrFacts.

Lemma isspace_lower_char_eq c : isspace (lower_char c) = isspace c.
Proof. by_cases_on_char c. Qed.

Lemma lower_idem s : lower (lower s) = lower s.
Proof.
  unfold lower. rewrite map_chars_compose. apply map_chars_ext.
  intros c. apply lower_char_idem.
Qed.

Lemma lstrip_map_chars f s :
  (∀ c, isspace (f c) = isspace c) →
  lstrip (map_chars f s) = map_chars f (lstrip s).
Proof.
  intros Hf. induction s as [|c s IH]; [done|]. simpl.
  rewrite Hf. by destruct (isspace c).
Qed.

Lemma rstrip_map_chars f s :
  (∀ c, isspace (f c) = isspace c) →
  rstrip (map_chars f s) = map_chars f (rstrip s).
Proof.
  intros Hf. induction s as [|c s IH]; [done|]. simpl.
  rewrite IH, Hf. destruct (rstrip s); simpl; [by destruct (isspace c) | done].
Qed.

Lemma strip_lower s : strip (lower s) = lower (strip s).
Proof.
  unfold strip, lower.
  rewrite lstrip_map_chars, rstrip_map_chars; auto using isspace_lower_char_eq.
Qed.

Lemma strip_idem s : strip (strip s) = strip s.
Proof.
  unfold strip at 1.
  rewrite lstrip_id by apply rstrip_starts_clean, lstrip_starts_clean.
  apply rstrip_idem.
Qed.

Lemma contains_replace_space s : contains (replace " " "_" s) " " = false.
Proof.
  unfold replace. induction s as [|c s IH]; [done|]. simpl. rewrite IH.
  by destruct (Ascii.eqb_spec c " ") as [->|Hc]; [|apply orb_false_intro;
    [by apply Ascii.eqb_neq|]].
Qed.

Lemma lower_clean_name s : lower (clean_name s) = clean_name s.
Proof.
  unfold clean_name, replace, lower. rewrite !map_chars_compose.
  apply map_chars_ext. intros c. simpl. apply lower_char_underscore.
Qed.

Lemma clean_name_lower s : clean_name (lower s) = clean_name s.
Proof. unfold clean_name. by rewrite strip_lower, lower_idem. Qed.

End LabelFacts.

Section LabelProperties.
Import Pandas PyStr PyStrFacts PandasFacts LabelFacts.

(** Every label that [clean_dataframe] assigns is in normal form: it holds
    no space, lowercasing it or stripping it again changes nothing. *)
Theorem cleaned_labels_normal (df : DataFrame) (n : string) :
  n ∈ cleaned_columns df →
  contains n " " = false ∧ lower n = n ∧ strip n = n.
Proof.
  rewrite cleaned_columns_clean_name.
  intros (m & -> & _)%list_elem_of_fmap. split_and!.
  - apply contains_replace_space.
  - apply lower_clean_name.
  - apply strip_clean_name.
Qed.

Lemma cleaned_labels_normal_witness :
  contains "home_town" " " = false ∧ lower "home_town" = "home_town"
  ∧ strip "home_town" = "home_town".
Proof.
  apply (cleaned_labels_normal Demo.people "home_town").
  vm_compute. right. right. left.
Defined.

(** Headers that differ only in letter case, or by whitespace in front,
    get the same cleaned label. *)
Theorem headers_equal_up_to_case_collide (s t : string) :
  lower s = lower t →
  clean_name s = clean_name t
  ∧ ∀ c, isspace c = true → clean_name (String c s) = clean_name t.
Proof.
  intros H.
  assert (Hst : clean_name s = clean_name t).
  { by rewrite <- (clean_name_lower s), <- (clean_name_lower t), H. }
  split; [done|]. intros c Hc. rewrite <- Hst.
  unfold clean_name, strip. simpl. by rewrite Hc.
Qed.

Lemma headers_equal_up_to_case_collide_witness :
  clean_name "Date" = clean_name "DATE".
Proof.
  apply (headers_equal_up_to_case_collide "Date" "DATE").
  vm_compute. reflexivity.
Defined.

End LabelProperties.

(** ** The normaliser on whole tables *)

Module TableFacts.
Import Pandas PandasFacts.

Lemma two_matches (df : DataFrame) : ∀ i j n s t,
  df !! i = Some (n, s) → df !! j = Some (n, t) → i ≠ j →
  (2 ≤ length (filter (λ p : string * Series, p.1 = n) df))%nat.
Proof.
  induction df as [|[m u] df IH]; intros i j n s t Hi Hj Hij; [done|].
  assert (Hstep : ∀ (k : nat) v, df !! k = Some (n, v) →
            (1 ≤ length (filter (λ p : string * Series, p.1 = n) df))%nat).
  { intros k v Hk.
    assert (Hin : (n, v) ∈ filter (λ p : string * Series, p.1 = n) df).
    { apply list_elem_of_filter. split; [done|]. by eapply list_elem_of_lookup_2. }
    destruct (filter _ df); [by apply not_elem_of_nil in Hin | simpl; lia]. }
  rewrite filter_cons.
  destruct i as [|i], j as [|j]; simpl in Hi, Hj; simplify_eq.
  - rewrite decide_True by done. specialize (Hstep _ _ Hj). simpl. lia.
  - rewrite decide_True by done. specialize (Hstep _ _ Hi). simpl. lia.
  - assert (Hrec := IH i j n s t Hi Hj ltac:(congruence)).
    case_decide; simpl; lia.
Qed.

(** Two columns with one label: [df[label]] is not a single column. *)
Lemma two_columns_one_label (df : DataFrame) i j n s t :
  df !! i = Some (n, s) → df !! j = Some (n, t) → i ≠ j →
  (2 ≤ length (getitem df n))%nat.
Proof.
  intros Hi Hj Hij. unfold getitem. rewrite length_fmap.
  exact (two_matches df i j n s t Hi Hj Hij).
Qed.

Lemma fillna_idem v (df : DataFrame) :
  isna v = false → fillna v (fillna v df) = fillna v df.
Proof.
  intros Hv. unfold fillna. rewrite <- list_fmap_compose.
  apply list_fmap_ext. intros i [n s] _. simpl. f_equal.
  rewrite <- list_fmap_compose. apply list_fmap_ext. intros j c _. simpl.
  destruct (isna c) eqn:E; [by rewrite Hv | by rewrite E].
Qed.

Lemma named_lookup (df named : DataFrame) i n s :
  columns named = PyStr.clean_name <$> columns df → named.*2 = df.*2 →
  df !! i = Some (n, s) → named !! i = Some (PyStr.clean_name n, s).
Proof.
  intros Hcols Hdata Hi.
  assert (H1 : columns named !! i = Some (PyStr.clean_name n)).
  { rewrite Hcols. unfold columns. by rewrite !list_lookup_fmap, Hi. }
  assert (H2 : named.*2 !! i = Some s).
  { rewrite Hdata. by rewrite list_lookup_fmap, Hi. }
  unfold columns in H1. rewrite list_lookup_fmap in H1.
  rewrite list_lookup_fmap in H2.
  destruct (named !! i) as [[a b]|]; simplify_eq/=. done.
Qed.

End TableFacts.

Section TableProperties.
Import Pandas PyStr PandasFacts TableFacts.

Variable to_datetime : Series → result Series.

(** Columns that share their cleaned label with another column are never
    date-coerced: whatever their cells, they leave [clean_dataframe] with
    exactly their filled values (when [to_datetime] fails only with value
    or type errors, so that the normaliser returns). *)
Theorem colliding_labels_not_coerced (df named : DataFrame) :
  set_columns df (cleaned_columns df) = Ok named →
  (∀ n s e, getitem (fillna (Str "") named) n = [s] →
            to_datetime s = Raise e → is_value_or_type_error e = true) →
  ∃ out,
    clean_dataframe to_datetime df = Ok out
    ∧ ∀ i j n s t,
        fillna (Str "") named !! i = Some (n, s) →
        fillna (Str "") named !! j = Some (n, t) →
        i ≠ j →
        out !! i = Some (n, s).
Proof.
  intros Hset Herr. rewrite (clean_dataframe_stages _ _ _ Hset).
  set (filled := fillna (Str "") named) in *.
  destruct (date_parsing_lookup to_datetime (columns filled) filled)
    as (out & Hout & Hlook).
  - intros n Hn. by rewrite <- length_getitem, Hn.
  - intros n s e _. apply Herr.
  - intros n. apply getitem_nonempty.
  - exists out. split; [done|]. intros i j n s t Hi Hj Hij.
    rewrite (Hlook i n s Hi). rewrite decide_False; [done|].
    intros [_ Hone]. pose proof (two_columns_one_label _ _ _ _ _ _ Hi Hj Hij). lia.
Qed.

(** The normaliser keeps the shape of the table: when [to_datetime]
    returns as many values as it is given and fails only with value or
    type errors, every column of the input is at its place in the output,
    under its cleaned label and with as many cells as before. *)
Theorem clean_dataframe_keeps_shape (df : DataFrame) :
  (∀ s p, to_datetime s = Ok p → length p = length s) →
  (∀ s e, to_datetime s = Raise e → is_value_or_type_error e = true) →
  ∃ out,
    clean_dataframe to_datetime df = Ok out
    ∧ length out = length df
    ∧ ∀ i n s, df !! i = Some (n, s) →
        ∃ s', out !! i = Some (clean_name n, s') ∧ length s' = length s.
Proof.
  intros Hlen Herr.
  destruct (set_columns_cleaned df) as (named & Hset & Hcols & Hdata).
  rewrite (clean_dataframe_stages _ _ _ Hset).
  set (filled := fillna (Str "") named).
  destruct (date_parsing_lookup to_datetime (columns filled) filled)
    as (out & Hout & Hlook).
  - intros n Hn. by rewrite <- length_getitem, Hn.
  - intros n s e _ _. apply Herr.
  - intros n. apply getitem_nonempty.
  - exists out. split; [done|]. split.
    + apply columns_date_parsing in Hout. apply (f_equal length) in Hout.
      unfold columns, filled, fillna in Hout. rewrite !length_fmap in Hout.
      apply (f_equal length) in Hdata. rewrite !length_fmap in Hdata. lia.
    + intros i n s Hi.
      pose proof (named_lookup _ _ _ _ _ Hcols Hdata Hi) as Hnamed.
      pose proof (fillna_lookup (Str "") _ _ _ _ Hnamed) as Hfilled.
      rewrite (Hlook _ _ _ Hfilled). eexists. split; [done|].
      case_decide.
      * destruct (to_datetime _) as [p|e] eqn:Ep.
        -- rewrite (Hlen _ _ Ep). by rewrite length_fmap.
        -- by rewrite length_fmap.
      * by rewrite length_fmap.
Qed.

(** Filling missing values a second time changes nothing, and a table
    without missing cells is left as it is. *)
Theorem fillna_fixed (df : DataFrame) :
  fillna (Str "") (fillna (Str "") df) = fillna (Str "") df
  ∧ ((∀ i n s c, df !! i = Some (n, s) → c ∈ s → isna c = false) →
     fillna (Str "") df = df).
Proof.
  split; [by apply fillna_idem|]. intros Hclean.
  unfold fillna. rewrite <- (list_fmap_id df) at 2.
  apply list_fmap_ext. intros i [n s] Hi. simpl. f_equal.
  rewrite <- (list_fmap_id s) at 2.
  apply list_fmap_ext. intros j c Hj. simpl.
  rewrite (Hclean i n s c Hi); [done|]. by eapply list_elem_of_lookup_2.
Qed.

End TableProperties.

(** ** The rename specification, further *)

Module ParseFacts.
Import Pandas PyStr PyStrFacts RenameFacts LabelFacts.

(** [(a + c + b).split(c) = a.split(c) + b.split(c)] *)
Lemma split_app c a b :
  split c (a ++ String c b) = (split c a ++ split c b)%list.
Proof.
  induction a as [|x a IH].
  - simpl. rewrite Ascii.eqb_refl. reflexivity.
  - simpl. rewrite IH.
    destruct (Ascii.eqb x c); [reflexivity|].
    pose proof (length_split c a) as Hl.
    destruct (split c a); [discriminate Hl | reflexivity].
Qed.

Lemma split_nonempty c s : split c s ≠ [].
Proof.
  intros H. apply (f_equal length) in H. by rewrite length_split in H.
Qed.

(** When the loop over the pairs raises, it is a [ValueError] and some
    piece does not split in two. *)
Lemma parse_pairs_raises pairs : ∀ d e,
  parse_pairs pairs d = Raise e →
  e = ValueError ∧ ∃ piece, piece ∈ pairs ∧ length (split ":" piece) ≠ 2.
Proof.
  induction pairs as [|p pairs IH]; intros d e; [done|]. simpl.
  destruct (split ":" p) as [|a [|b [|? ?]]] eqn:E; simpl.
  - intros [= <-]. split; [done|]. exists p. split; [by left | by rewrite E].
  - intros [= <-]. split; [done|]. exists p. split; [by left | by rewrite E].
  - intros H. destruct (IH _ _ H) as (-> & piece & Hin & Hlen).
    split; [done|]. exists piece. split; [by right | done].
  - intros [= <-]. split; [done|]. exists p. split; [by left | by rewrite E].
Qed.

(** What holds of the initial mapping and of every inserted entry holds
    of the parsed mapping. *)
Lemma parse_pairs_invariant (P : string → string → Prop) pairs : ∀ d d',
  (∀ old new, P (lower (strip old)) (strip new)) →
  (∀ k v, d !! k = Some v → P k v) →
  parse_pairs pairs d = Ok d' →
  ∀ k v, d' !! k = Some v → P k v.
Proof.
  induction pairs as [|p pairs IH]; intros d d' Hnew Hd; simpl.
  - by intros [= <-].
  - destruct (unpack_pair (split ":" p)) as [[old new]|e]; simpl; [|done].
    apply IH; [done|]. intros k v.
    destruct (decide (lower (strip old) = k)) as [<-|Hne].
    + rewrite lookup_insert_eq. intros [= <-]. apply Hnew.
    + rewrite lookup_insert_ne by done. apply Hd.
Qed.

Lemma key_normal old : 
  lower (lower (strip old)) = lower (strip old)
  ∧ strip (lower (strip old)) = lower (strip old).
Proof.
  split; [apply lower_idem|]. by rewrite strip_lower, strip_idem.
Qed.

(** The mapping built by inserting the pairs in order answers with the
    last pair of the key. *)
Lemma foldl_insert_lookup (pairs : list (string * string)) : ∀ (d : gmap string string) k,
  foldl (λ d on, <[lower (strip on.1) := strip on.2]> d) d pairs !! k
  = match last (filter (λ on : string * string, lower (strip on.1) = k) pairs) with
    | Some on => Some (strip on.2)
    | None => d !! k
    end.
Proof.
  induction pairs as [|[o n] pairs IH]; intros d k; [done|].
  simpl. rewrite IH, filter_cons. simpl.
  destruct (decide (lower (strip o) = k)) as [<-|Hne].
  - rewrite last_cons.
    destruct (last (filter _ pairs)); [done|]. by rewrite lookup_insert_eq.
  - destruct (last (filter _ pairs)); [done|]. by rewrite lookup_insert_ne.
Qed.

Lemma parse_formatted (pairs : list (string * string)) :
  (∀ o n, (o, n) ∈ pairs →
     (contains o "," = false ∧ contains o ":" = false)
     ∧ (contains n "," = false ∧ contains n ":" = false)) →
  parse_rename_columns (join "," ((λ on, on.1 ++ ":" ++ on.2) <$> pairs))
  = Ok (foldl (λ d on, <[lower (strip on.1) := strip on.2]> d) ∅ pairs).
Proof.
  intros Hsep. unfold parse_rename_columns.
  destruct pairs as [|[o n] pairs]; [done|].
  assert (Htruthy : truthy (join "," ((λ on : string * string,
            on.1 ++ ":" ++ on.2) <$> (o, n) :: pairs)) = true).
  { rewrite fmap_cons. simpl.
    destruct ((λ on : string * string, on.1 ++ ":" ++ on.2) <$> pairs);
      by destruct o. }
  rewrite Htruthy. rewrite split_join.
  - apply parse_pairs_formatted. intros o' n' Hin.
    destruct (Hsep o' n' Hin) as [[_ ?] [_ ?]]. done.
  - by rewrite fmap_cons.
  - intros it ([o' n'] & -> & Hin)%list_elem_of_fmap.
    destruct (Hsep o' n' Hin) as [[Ho _] [Hn _]]. simpl.
    change (o' ++ ":" ++ n') with (o' ++ String ":" n').
    rewrite contains_app, Ho. simpl. apply Hn.
Qed.

Lemma parse_rename_columns_raises rename_str e :
  parse_rename_columns rename_str = Raise e →
  e = ValueError ∧ rename_str ≠ ""
  ∧ ∃ piece, piece ∈ split "," rename_str ∧ count piece ":" ≠ 1.
Proof.
  unfold parse_rename_columns. destruct rename_str as [|c s]; [done|].
  simpl truthy. cbv iota. intros (-> & piece & Hin & Hlen)%parse_pairs_raises.
  split_and!; [done|done|]. exists piece. split; [done|].
  rewrite length_split in Hlen. lia.
Qed.

End ParseFacts.

Section ParseProperties.
Import Pandas PyStr RenameFacts LabelFacts ParseFacts.

(** [parse_rename_columns] fails exactly on the non-empty specifications
    with a comma-separated piece that does not hold exactly one colon, and
    then always with [ValueError]; every other specification is parsed. *)
Theorem parse_rename_columns_fails_iff (rename_str : string) (e : exn) :
  parse_rename_columns rename_str = Raise e ↔
  e = ValueError ∧ rename_str ≠ ""
  ∧ ∃ piece, piece ∈ split "," rename_str ∧ count piece ":" ≠ 1.
Proof.
  split.
  - apply parse_rename_columns_raises.
  - intros (-> & Hne & piece & Hin & Hcount). by eapply malformed_raises.
Qed.

Lemma parse_rename_columns_fails_iff_witness :
  parse_rename_columns "a:b:c" = Raise ValueError.
Proof.
  apply (parse_rename_columns_fails_iff "a:b:c" ValueError).
  split_and!; [reflexivity | discriminate |].
  exists "a:b:c". split; [vm_compute; left | vm_compute; lia].
Defined.

(** An empty piece is an error: a specification that ends or starts with
    a comma, or holds two commas in a row, raises [ValueError]. *)
Theorem empty_piece_rejected :
  (∀ s, parse_rename_columns (s ++ ",") = Raise ValueError)
  ∧ (∀ s, parse_rename_columns ("," ++ s) = Raise ValueError)
  ∧ (∀ a b, parse_rename_columns (a ++ ",," ++ b) = Raise ValueError).
Proof.
  split_and!.
  - intros s. apply (malformed_raises _ "").
    + by destruct s.
    + change (s ++ ",") with (s ++ String "," ""). rewrite split_app.
      apply elem_of_app. right. by left.
    + done.
  - intros s. apply (malformed_raises _ ""); [done| |done].
    change ("," ++ s) with ("" ++ String "," s). rewrite split_app. by left.
  - intros a b. apply (malformed_raises _ "").
    + by destruct a.
    + change (a ++ ",," ++ b) with (a ++ String "," (String "," b)).
      rewrite split_app. apply elem_of_app. right.
      change (String "," b) with ("" ++ String "," b). rewrite split_app. by left.
    + done.
Qed.

(** Every key of a parsed mapping is lowercase and trimmed, and every
    value is trimmed. *)
Theorem parsed_mapping_normal
    (rename_str : string) (d : gmap string string) (k v : string) :
  parse_rename_columns rename_str = Ok d →
  d !! k = Some v →
  lower k = k ∧ strip k = k ∧ strip v = v.
Proof.
  unfold parse_rename_columns. destruct (truthy rename_str).
  - intros Hparse. revert k v.
    apply (parse_pairs_invariant
             (λ k v, lower k = k ∧ strip k = k ∧ strip v = v)
             (split "," rename_str) ∅ d); [| |done].
    + intros old new. destruct (key_normal old). split_and!; [done|done|].
      apply strip_idem.
    + intros k v. by rewrite lookup_empty.
  - intros [= <-]. by rewrite lookup_empty.
Qed.

Lemma parsed_mapping_normal_witness :
  lower "dob" = "dob" ∧ strip "dob" = "dob"
  ∧ strip "Date Of Birth" = "Date Of Birth".
Proof.
  apply (parsed_mapping_normal " DOB : Date Of Birth "
           {["dob" := "Date Of Birth"]}).
  - vm_compute. reflexivity.
  - vm_compute. reflexivity.
Defined.

(** When several pairs give the same key (after trimming and
    lowercasing), the last one decides; a key no pair gives is absent. *)
Theorem last_pair_decides (pairs : list (string * string)) :
  (∀ o n, (o, n) ∈ pairs →
     (contains o "," = false ∧ contains o ":" = false)
     ∧ (contains n "," = false ∧ contains n ":" = false)) →
  ∃ d, parse_rename_columns (join "," ((λ on, on.1 ++ ":" ++ on.2) <$> pairs)) = Ok d
       ∧ ∀ k, d !! k =
           (λ on : string * string, strip on.2)
             <$> last (filter (λ on : string * string, lower (strip on.1) = k) pairs).
Proof.
  intros Hsep. eexists. split; [by apply parse_formatted|].
  intros k. rewrite foldl_insert_lookup.
  destruct (last _); [done | by rewrite lookup_empty].
Qed.

Lemma last_pair_decides_witness :
  ∃ d, parse_rename_columns "a:x,A :y" = Ok d ∧ d !! "a" = Some "y".
Proof.
  destruct (last_pair_decides [("a", "x"); ("A ", "y")]) as (d & Hd & Hk).
  - intros o n [[= -> ->]|[[= -> ->]|[]%not_elem_of_nil]%elem_of_cons]%elem_of_cons;
      vm_compute; done.
  - exists d. split; [exact Hd|]. rewrite Hk. vm_compute. reflexivity.
Defined.

End ParseProperties.

(** ** Runs of the program, further *)

Module RunFacts.
Import Pandas PyStr PandasFacts Pathlib.

(** A date parser that fails only with value or type errors never makes
    the normaliser fail. *)
Lemma clean_dataframe_returns (to_datetime : Series → result Series) df :
  (∀ s e, to_datetime s = Raise e → is_value_or_type_error e = true) →
  ∃ out, clean_dataframe to_datetime df = Ok out.
Proof.
  intros Herr.
  destruct (set_columns_cleaned df) as (named & Hset & _ & _).
  unfold clean_dataframe. rewrite Hset.
  destruct (date_parsing_lookup to_datetime
              (columns (fillna (Str "") named)) (fillna (Str "") named))
    as (out & Hout & _).
  - intros n Hn. by rewrite <- length_getitem, Hn.
  - intros n s e _ _. apply Herr.
  - intros n. apply getitem_nonempty.
  - by exists out.
Qed.

Lemma length_append a b :
  String.length (a ++ b) = String.length a + String.length b.
Proof. induction a as [|c a IH]; simpl; [done | by rewrite IH]. Qed.

Lemma drop_append a b : drop (String.length a) (a ++ b) = b.
Proof. induction a as [|c a IH]; simpl; [by destruct b | done]. Qed.

Lemma drop_prefix i : ∀ s t,
  drop i s = t → t ≠ "" → ∃ pre, s = pre ++ t ∧ String.length pre = i.
Proof.
  induction i as [|i IH]; intros s t.
  - simpl. intros -> _. by exists "".
  - destruct s as [|c s]; simpl drop; [congruence|].
    intros H Ht. destruct (IH s t H Ht) as (pre & -> & Hl).
    exists (String c pre). split; [done | by rewrite <- Hl].
Qed.

Lemma rfind_append c a b j :
  rfind c b = Some j → rfind c (a ++ b) = Some (String.length a + j).
Proof.
  intros H. induction a as [|x a IH]; simpl; [done | by rewrite IH].
Qed.

(** The suffix is [.xlsx] exactly when the name is [.xlsx] after a
    non-empty stem. *)
Lemma suffix_xlsx_iff (p : Path) :
  suffix p = ".xlsx" ↔ ∃ stem, stem ≠ "" ∧ name p = stem ++ ".xlsx".
Proof.
  unfold suffix. split.
  - destruct (rfind "." (name p)) as [i|]; [|done].
    destruct (Nat.ltb_spec 0 i) as [Hi|]; [|done].
    destruct (_ <? _)%nat; [|done]. simpl. intros Hdrop.
    destruct (drop_prefix i _ _ Hdrop) as (pre & Hname & Hl); [done|].
    exists pre. split; [|done]. intros ->. simpl in Hl. lia.
  - intros (stem & Hne & ->).
    rewrite (rfind_append "." stem ".xlsx" 0) by reflexivity.
    rewrite Nat.add_0_r, length_append, drop_append.
    assert (0 < String.length stem) by (destruct stem; [done | simpl; lia]).
    destruct (Nat.ltb_spec 0 (String.length stem)); [|lia].
    destruct (Nat.ltb_spec (String.length stem)
                (String.length stem + String.length ".xlsx" - 1)); [done|].
    simpl in *. lia.
Qed.

End RunFacts.

Section RunProperties.
Import Pandas PyStr RenameFacts ParseFacts RunFacts.

Variable FS : Type.
Variable path_exists : FS → string → bool.
Variable read_csv : FS → string → result DataFrame.
Variable to_datetime : Series → result Series.
Variable to_excel : DataFrame → string → FS → result unit * FS.

Local Abbreviation convert := (convert_csv_to_excel FS read_csv to_datetime to_excel).
Local Abbreviation run_main := (main FS path_exists read_csv to_datetime to_excel).
Local Abbreviation str_of path := (Pathlib.to_string (Pathlib.of_string path)).

(** On parsed arguments, [main] ends with status 0 exactly when the input
    exists, the output suffix is [.xlsx] and reading, cleaning, renaming
    and writing all succeed. *)
Lemma main_returns_iff (input output : string) (rename : option string) (w : FS) :
  (exit_status (run_main input output rename w).1.1 = 0%Z →
     path_exists w (str_of input) = true
     ∧ Pathlib.suffix (Pathlib.of_string output) = ".xlsx"
     ∧ ∃ df cleaned renamed w',
         read_csv w (str_of input) = Ok df
         ∧ clean_dataframe to_datetime df = Ok cleaned
         ∧ rename_stage rename cleaned = Ok renamed
         ∧ to_excel renamed (str_of output) w = (Ok (), w'))
  ∧ (∀ df cleaned renamed w',
       path_exists w (str_of input) = true →
       Pathlib.suffix (Pathlib.of_string output) = ".xlsx" →
       read_csv w (str_of input) = Ok df →
       clean_dataframe to_datetime df = Ok cleaned →
       rename_stage rename cleaned = Ok renamed →
       to_excel renamed (str_of output) w = (Ok (), w') →
       run_main input output rename w
       = (Returned, w',
          [EvExists (str_of input); EvReadCsv (str_of input);
           EvToExcel (str_of output)])).
Proof.
  split.
  - unfold main, convert_csv_to_excel.
    destruct (path_exists w _); [|done]. simpl negb. cbv iota.
    destruct (String.eqb_spec (Pathlib.suffix (Pathlib.of_string output)) ".xlsx")
      as [Hsuf|]; [|done]. simpl negb. cbv iota.
    destruct (read_csv w _) as [df|e];
      [|by destruct (isinstance e CFileNotFoundError), (isinstance e CEmptyDataError)].
    destruct (clean_dataframe to_datetime df) as [cleaned|e] eqn:Hclean;
      unfold mbind, result_bind; [|done].
    destruct (rename_stage rename cleaned) as [renamed|e] eqn:Hren; [|done].
    destruct (to_excel renamed _ w) as [[[]|e] w'] eqn:Hw; [|done].
    intros _. split_and!; [done|done|]. by exists df, cleaned, renamed, w'.
  - intros df cleaned renamed w' Hex Hsuf Hread Hclean Hren Hw.
    unfold main, convert_csv_to_excel. rewrite Hex, Hsuf, Hread, Hclean.
    unfold mbind, result_bind. by rewrite Hren, Hw.
Qed.

(** With a date parser that fails only with value or type errors, the
    one exception that leaves the conversion is the [ValueError] of a
    malformed rename specification; read and write failures never leave
    it as exceptions, and nothing has been written when it is raised. *)
Theorem only_rename_errors_escape
    (input_file output_file : string) (rename : option string)
    (w w' : FS) (e : exn) (evs : list Event) :
  (∀ s e, to_datetime s = Raise e → is_value_or_type_error e = true) →
  convert input_file output_file rename w = (Raised e, w', evs) →
  e = ValueError ∧ w' = w ∧ evs = [EvReadCsv input_file]
  ∧ ∃ spec piece,
      rename = Some spec ∧ spec ≠ ""
      ∧ piece ∈ split "," spec ∧ count piece ":" ≠ 1.
Proof.
  intros Herr. unfold convert_csv_to_excel.
  destruct (read_csv w input_file) as [df|e0];
    [|by destruct (isinstance e0 CFileNotFoundError), (isinstance e0 CEmptyDataError)].
  destruct (clean_dataframe_returns to_datetime df Herr) as [cleaned ->].
  unfold mbind, result_bind.
  destruct (rename_stage rename cleaned) as [renamed|e0] eqn:Hren.
  - by destruct (to_excel renamed output_file w) as [[[]|?] ?].
  - intros [= -> <- <-]. unfold rename_stage in Hren.
    destruct rename as [spec|]; [|done].
    destruct (truthy spec); [|done].
    destruct (parse_rename_columns spec) as [d|e0] eqn:Hparse; [done|].
    unfold mbind, result_bind in Hren. injection Hren as ->.
    destruct (parse_rename_columns_raises _ _ Hparse) as (-> & Hne & piece & Hin & Hc).
    split_and!; try done. by exists spec, piece.
Qed.

(** The output is accepted only with a name made of a non-empty stem and
    [.xlsx]: a path whose last component is not of that form, such as a
    bare [.xlsx], is rejected with status 1 before the input is read. *)
Theorem output_needs_stem (input output : string) (rename : option string) (w : FS) :
  (Pathlib.suffix (Pathlib.of_string output) = ".xlsx" ↔
     ∃ stem, stem ≠ "" ∧ Pathlib.name (Pathlib.of_string output) = stem ++ ".xlsx")
  ∧ ((∀ stem, Pathlib.name (Pathlib.of_string output) = stem ++ ".xlsx" → stem = "") →
     run_main input output rename w = (Exited 1, w, [EvExists (str_of input)])).
Proof.
  split; [apply suffix_xlsx_iff|]. intros Hstem. unfold main.
  destruct (path_exists w _); [|done]. simpl negb. cbv iota.
  destruct (String.eqb_spec (Pathlib.suffix (Pathlib.of_string output)) ".xlsx")
    as [Hsuf|]; [|done].
  apply suffix_xlsx_iff in Hsuf as (stem & Hne & Hname).
  by apply Hstem in Hname.
Qed.

(** [parser.parse_args()], as in [main]. *)
Variable parse_args : list string → ParsedArgs.

Local Abbreviation program :=
  (main_from_argv FS path_exists read_csv to_datetime to_excel parse_args).

(** The program ends with status 0 only if [argparse] itself exits with 0
    (as after [-h]) or the arguments parse, the input exists, the output
    suffix is [.xlsx] and reading, cleaning, renaming and writing all
    succeed.  In the first case nothing is read or written; in the second
    the run is one existence test, one read and one write, the writer gets
    the cleaned and renamed table, and the file system is the one the
    writer leaves. *)
Theorem program_succeeds_iff (argv : list string) (w : FS) :
  (exit_status (program argv w).1.1 = 0%Z →
     parse_args argv = SystemExit 0
     ∨ ∃ input output rename,
         parse_args argv = Namespace input output rename
         ∧ path_exists w (str_of input) = true
         ∧ Pathlib.suffix (Pathlib.of_string output) = ".xlsx"
         ∧ ∃ df cleaned renamed w',
             read_csv w (str_of input) = Ok df
             ∧ clean_dataframe to_datetime df = Ok cleaned
             ∧ rename_stage rename cleaned = Ok renamed
             ∧ to_excel renamed (str_of output) w = (Ok (), w'))
  ∧ (parse_args argv = SystemExit 0 → program argv w = (Exited 0, w, []))
  ∧ (∀ input output rename df cleaned renamed w',
       parse_args argv = Namespace input output rename →
       path_exists w (str_of input) = true →
       Pathlib.suffix (Pathlib.of_string output) = ".xlsx" →
       read_csv w (str_of input) = Ok df →
       clean_dataframe to_datetime df = Ok cleaned →
       rename_stage rename cleaned = Ok renamed →
       to_excel renamed (str_of output) w = (Ok (), w') →
       program argv w
       = (Returned, w',
          [EvExists (str_of input); EvReadCsv (str_of input);
           EvToExcel (str_of output)])).
Proof.
  unfold main_from_argv. split_and!.
  - destruct (parse_args argv) as [input output rename|code].
    + intros H. right. exists input, output, rename. split; [done|].
      by apply main_returns_iff.
    + simpl. intros ->. by left.
  - by intros ->.
  - intros input output rename df cleaned renamed w' -> Hex Hsuf Hread Hclean Hren Hw.
    by eapply main_returns_iff.
Qed.

End RunProperties.

(** ** Further runs on the small world *)

Section MoreRuns.
Import Pandas PyStr RunFacts.

Lemma demo_to_datetime_length (s p : Series) :
  Demo.to_datetime s = Ok p → length p = length s.
Proof.
  revert p. induction s as [|c s IH]; intros p; simpl.
  - by intros [= <-].
  - destruct (Demo.parse_cell c) as [t|e]; simpl; [|done].
    destruct (Demo.to_datetime s) as [ts|e]; simpl; [|done].
    intros [= <-]. simpl. by rewrite (IH ts).
Qed.

Lemma colliding_labels_not_coerced_witness :
  ∃ out, clean_dataframe Demo.to_datetime Demo.colliding = Ok out
         ∧ out !! 0 = Some ("date", [Str "2020-01-01"]).
Proof.
  destruct (colliding_labels_not_coerced Demo.to_datetime Demo.colliding
              [("date", [Str "2020-01-01"]); ("date", [Str "2020-02-02"])])
    as (out & Hout & Hcell).
  - vm_compute. reflexivity.
  - intros n s e _. apply demo_to_datetime_errors.
  - exists out. split; [exact Hout|].
    apply (Hcell 0 1 "date" [Str "2020-01-01"] [Str "2020-02-02"]).
    + vm_compute. reflexivity.
    + vm_compute. reflexivity.
    + lia.
Defined.

Lemma clean_dataframe_keeps_shape_witness :
  ∃ out, clean_dataframe Demo.to_datetime Demo.people = Ok out
         ∧ length out = 3
         ∧ ∃ s', out !! 2 = Some ("home_town", s') ∧ length s' = 2.
Proof.
  destruct (clean_dataframe_keeps_shape Demo.to_datetime Demo.people)
    as (out & Hout & Hlen & Hcol).
  - apply demo_to_datetime_length.
  - apply demo_to_datetime_errors.
  - exists out. split; [exact Hout|]. split; [exact Hlen|].
    apply (Hcol 2 "Home Town" [Str "Oslo"; NaN]). vm_compute. reflexivity.
Defined.

Lemma fillna_fixed_witness :
  fillna (Str "") [("name", [Str "Alice"; Str "Bob"])]
  = [("name", [Str "Alice"; Str "Bob"])].
Proof.
  apply (proj2 (fillna_fixed [("name", [Str "Alice"; Str "Bob"])])).
  intros [|i] n s c Hi Hc; [|discriminate Hi].
  injection Hi as <- <-.
  apply elem_of_cons in Hc as [->|Hc]; [reflexivity|].
  apply elem_of_cons in Hc as [->|Hc]; [reflexivity|].
  by apply not_elem_of_nil in Hc.
Defined.

Lemma program_succeeds_iff_witness :
  main_from_argv Demo.FS Demo.path_exists Demo.read_csv Demo.to_datetime
    Demo.to_excel Demo.parse_args
    ["-i"; "in.csv"; "-o"; "out.xlsx"; "-r"; "dob:date_of_birth"] Demo.disk
  = (Returned,
     <["out.xlsx" := Demo.Workbook
         [("name", [Str "Alice"; Str "Bob"]);
          ("date_of_birth", [Timestamp 20200101; Timestamp 20200202]);
          ("home_town", [Str "Oslo"; Str ""])]]> Demo.disk,
     [EvExists "in.csv"; EvReadCsv "in.csv"; EvToExcel "out.xlsx"]).
Proof.
  apply (proj2 (proj2 (program_succeeds_iff Demo.FS Demo.path_exists Demo.read_csv
                  Demo.to_datetime Demo.to_excel Demo.parse_args
                  ["-i"; "in.csv"; "-o"; "out.xlsx"; "-r"; "dob:date_of_birth"]
                  Demo.disk))
           "in.csv" "out.xlsx" (Some "dob:date_of_birth")
           Demo.people
           [("name", [Str "Alice"; Str "Bob"]);
            ("dob", [Timestamp 20200101; Timestamp 20200202]);
            ("home_town", [Str "Oslo"; Str ""])]
           [("name", [Str "Alice"; Str "Bob"]);
            ("date_of_birth", [Timestamp 20200101; Timestamp 20200202]);
            ("home_town", [Str "Oslo"; Str ""])]);
    vm_compute; reflexivity.
Defined.

Lemma only_rename_errors_escape_witness :
  ∃ spec piece,
    Some "a-b,c:d" = Some spec ∧ spec ≠ ""
    ∧ piece ∈ split "," spec ∧ count piece ":" ≠ 1.
Proof.
  apply (only_rename_errors_escape Demo.FS Demo.read_csv Demo.to_datetime
           Demo.to_excel "in.csv" "out.xlsx" (Some "a-b,c:d")
           Demo.disk Demo.disk ValueError [EvReadCsv "in.csv"]).
  - apply demo_to_datetime_errors.
  - vm_compute. reflexivity.
Defined.

Lemma output_needs_stem_witness :
  main Demo.FS Demo.path_exists Demo.read_csv Demo.to_datetime Demo.to_excel
    "in.csv" ".xlsx" None Demo.disk
  = (Exited 1, Demo.disk, [EvExists "in.csv"]).
Proof.
  apply (proj2 (output_needs_stem Demo.FS Demo.path_exists Demo.read_csv
                  Demo.to_datetime Demo.to_excel "in.csv" ".xlsx" None Demo.disk)).
  intros stem Hname. apply (f_equal String.length) in Hname.
  rewrite length_append in Hname.
  destruct stem; [reflexivity | simpl in Hname; lia].
Defined.

End MoreRuns.
